(** * The feedback portal: submission, dashboards, routing and sign-in

    A shallow embedding of the decision logic of the portal.  The core is
    the submission page (src/SubmitFeedback.tsx) with its two closures
    [analyzeSentiment] and [handleSubmit] and the JavaScript string
    operations they call; around it come the loading of the student
    record, the charts of the faculty dashboard
    (src/FacultyDashboard.tsx), the route table and its guard
    (src/App.tsx) and the two handlers of the sign-in page
    (src/Auth.tsx).  Definitions come first, then the properties. *)

From Stdlib Require Import Bool List Ascii String NArith ZArith Lia.
Import ListNotations.

Local Open Scope string_scope.

(** ** JavaScript strings

    A text is a [string]: each [ascii] stands for one code unit below 256,
    which covers the ASCII keywords of the classifier and the Latin-1 range
    of a feedback text. *)

Module JsString.

(** Code units with a lower-case counterpart: A..Z, and the Latin-1
    capitals U+00C0..U+00DE except the multiplication sign U+00D7. *)
Definition is_upper (c : ascii) : bool :=
  let n := N_of_ascii c in
  ((65 <=? n) && (n <=? 90) ||
   (192 <=? n) && (n <=? 222) && negb (n =? 215))%N.

Definition lower_char (c : ascii) : ascii :=
  if is_upper c then ascii_of_N (N_of_ascii c + 32) else c.

(** [String.prototype.toLowerCase]. *)
Fixpoint toLowerCase (s : string) : string :=
  match s with
  | EmptyString => EmptyString
  | String c s' => String (lower_char c) (toLowerCase s')
  end.

(** [String.prototype.includes]: [k] occurs in [s] at some position. *)
Fixpoint includes (s k : string) : bool :=
  if prefix k s then true
  else match s with
       | EmptyString => false
       | String _ s' => includes s' k
       end.

(** White space and line terminators below 256: TAB, LF, VT, FF, CR,
    SPACE and NO-BREAK SPACE. *)
Definition is_space (c : ascii) : bool :=
  let n := N_of_ascii c in
  ((9 <=? n) && (n <=? 13) || (n =? 32) || (n =? 160))%N.

Fixpoint trimStart (s : string) : string :=
  match s with
  | EmptyString => EmptyString
  | String c s' => if is_space c then trimStart s' else s
  end.

Fixpoint trimEnd (s : string) : string :=
  match s with
  | EmptyString => EmptyString
  | String c s' =>
      match trimEnd s' with
      | EmptyString => if is_space c then EmptyString else String c EmptyString
      | t => String c t
      end
  end.

(** [String.prototype.trim]. *)
Definition trim (s : string) : string := trimEnd (trimStart s).

(** Truthiness of a string: every string but the empty one. *)
Definition nonempty (s : string) : bool :=
  match s with
  | EmptyString => false
  | String _ _ => true
  end.

Fixpoint all_space (s : string) : bool :=
  match s with
  | EmptyString => true
  | String c s' => is_space c && all_space s'
  end.

End JsString.

Import JsString.

(** ** The fallback keyword classifier

    The body of the [catch] block of [analyzeSentiment] (lines 85-91): the
    text is lower-cased, then tested against the two keyword chains. *)

Definition keywordFallback (text : string) : string :=
  let lowerText := toLowerCase text in
  if includes lowerText "excellent" || includes lowerText "great"
     || includes lowerText "good" || includes lowerText "helpful"
     || includes lowerText "amazing"
  then "Positive"
  else if includes lowerText "bad" || includes lowerText "poor"
          || includes lowerText "terrible" || includes lowerText "worst"
          || includes lowerText "disappointed"
  then "Negative"
  else "Neutral".

(** The two keyword sets as the specification lists them. *)
Definition positive_keywords : list string :=
  ["excellent"; "great"; "good"; "helpful"; "amazing"].

Definition negative_keywords : list string :=
  ["bad"; "poor"; "terrible"; "worst"; "disappointed"].

(** [s] contains [k]: [k] sits between some prefix and some suffix. *)
Definition contains (s k : string) : Prop :=
  exists pre post, s = pre ++ k ++ post.

Definition contains_any (ks : list string) (s : string) : Prop :=
  exists k, In k ks /\ contains s k.

(** ** JavaScript values

    What the two awaited calls may hand back: the parsed response of the
    edge function and the error slot of either call.  Numbers are kept as
    integers; only whether a number is zero matters below. *)

#[warnings="-register-all"] Inductive JsValue : Type :=
| JUndefined
| JNull
| JBool (b : bool)
| JNum (n : Z)
| JStr (s : string)
| JArr (items : list JsValue)
| JObj (fields : list (string * JsValue)).

(** ToBoolean, the test behind [if (x)], [!x] and [x || y]. *)
Definition truthy (v : JsValue) : bool :=
  match v with
  | JUndefined | JNull => false
  | JBool b => b
  | JNum n => negb (n =? 0)%Z
  | JStr s => nonempty s
  | JArr _ | JObj _ => true
  end.

Fixpoint lookup_field (name : string) (fields : list (string * JsValue))
  : JsValue :=
  match fields with
  | [] => JUndefined
  | (k, v) :: rest => if String.eqb k name then v else lookup_field name rest
  end.

Definition TypeError : JsValue := JObj [("name", JStr "TypeError")].

(** Reading [v.name] for a name that no prototype defines: a TypeError on
    [undefined] and [null], the own field of an object, [undefined] on any
    other value. *)
Definition get_property (v : JsValue) (name : string) : JsValue + JsValue :=
  match v with
  | JUndefined | JNull => inr TypeError
  | JObj fields => inl (lookup_field name fields)
  | _ => inl JUndefined
  end.

Definition has_field (name : string) (fields : list (string * JsValue))
  : bool :=
  existsb (fun entry => fst entry =? name) fields.

(** Whether ToString, the conversion a template literal applies, returns
    for a value parsed from JSON.  On an object it calls [toString]: the
    inherited one answers, but an own entry of that name hides it and,
    never being a function, leaves no primitive to return, so the
    conversion throws a TypeError.  An array converts each of its items,
    [null] and [undefined] apart. *)
Fixpoint printable (v : JsValue) : bool :=
  match v with
  | JObj fields => negb (has_field "toString" fields)
  | JArr items =>
      (fix all (l : list JsValue) : bool :=
         match l with
         | [] => true
         | x :: rest => printable x && all rest
         end) items
  | _ => true
  end.

(** ** Records of the component *)

Module StudentInfo.
Record info : Type := { id : string; branch : string; semester : Z }.
End StudentInfo.

(** The object literal passed to [supabase.from('feedback').insert]. *)
Module FeedbackRow.
Record row : Type := {
  student_id : string;
  subject : string;
  category : string;
  feedback_text : string;
  sentiment : JsValue;
  branch : string;
  semester : Z
}.
End FeedbackRow.

(** The state the closure of [handleSubmit] reads. *)
Record Form : Type := {
  studentInfo : option StudentInfo.info;
  subject : string;
  category : string;
  feedbackText : string
}.

(** The description of a toast: a literal, or the text of the template
    literal [`Your feedback was classified as ${sentiment}`], kept as the
    value it shows. *)
Inductive Description : Type :=
| Literal (s : string)
| ClassifiedAs (sentiment : JsValue).

Inductive Variant : Type := default | destructive.

(** Calls that leave the component, in the order they are made. *)
Inductive Event : Type :=
| PreventDefault
| Toast (title : string) (description : Description) (variant : Variant)
| ConsoleError (message : string) (error : JsValue)
| FunctionsInvoke (name : string) (text : string)
| Insert (table : string) (row : FeedbackRow.row)
| Navigate (path : string).

(** How an awaited call settles: the promise rejects, or it resolves to an
    object with a [data] and an [error] field. *)
Inductive Settled : Type :=
| Rejected (reason : JsValue)
| Resolved (data error : JsValue).

(** The hosted backend behind the [supabase] client.  A reply may depend
    on everything that happened before the call, so two calls with the
    same arguments need not agree. *)
Record Supabase : Type := {
  functions_invoke : list Event -> string -> string -> Settled;
  from_insert : list Event -> string -> FeedbackRow.row -> Settled
}.

Record World : Type := {
  isSubmitting : bool;
  isAnalyzing : bool;
  events : list Event
}.

(** ** Computations: state, and completion by value or by throw *)

Inductive Completion (A : Type) : Type :=
| Normal (a : A)
| Throw (error : JsValue).
Arguments Normal {A} a.
Arguments Throw {A} error.

Definition Js (A : Type) : Type := World -> Completion A * World.

Definition ret {A} (a : A) : Js A := fun w => (Normal a, w).

Definition throw {A} (e : JsValue) : Js A := fun w => (Throw e, w).

Definition bind {A B} (m : Js A) (k : A -> Js B) : Js B :=
  fun w =>
    match m w with
    | (Normal a, w') => k a w'
    | (Throw e, w') => (Throw e, w')
    end.

Declare Scope js_scope.
Delimit Scope js_scope with js.
Notation "x <- m ;; k" := (bind m (fun x => k))
  (at level 61, m at next level, right associativity) : js_scope.
Notation "m ;; k" := (bind m (fun _ => k))
  (at level 61, right associativity) : js_scope.

(** [try { body } catch (error) { handler } finally { cleanup }]. *)
Definition try_catch_finally {A}
  (body : Js A) (handler : JsValue -> Js A) (cleanup : Js unit) : Js A :=
  fun w =>
    let '(c, w1) := match body w with
                    | (Normal a, w') => (Normal a, w')
                    | (Throw e, w') => handler e w'
                    end in
    match cleanup w1 with
    | (Normal _, w2) => (c, w2)
    | (Throw e, w2) => (Throw e, w2)
    end.

Definition emit (e : Event) : Js unit :=
  fun w => (Normal tt, {| isSubmitting := isSubmitting w;
                          isAnalyzing := isAnalyzing w;
                          events := events w ++ [e] |}).

Definition setIsSubmitting (b : bool) : Js unit :=
  fun w => (Normal tt, {| isSubmitting := b;
                          isAnalyzing := isAnalyzing w;
                          events := events w |}).

Definition setIsAnalyzing (b : bool) : Js unit :=
  fun w => (Normal tt, {| isSubmitting := isSubmitting w;
                          isAnalyzing := b;
                          events := events w |}).

Definition toast (title : string) (description : Description)
  (variant : Variant) : Js unit :=
  emit (Toast title description variant).

Definition console_error (message : string) (error : JsValue) : Js unit :=
  emit (ConsoleError message error).

Definition navigate (path : string) : Js unit := emit (Navigate path).

Definition preventDefault : Js unit := emit PreventDefault.

(** [await p]: the value a resolved promise carries, or a throw of the
    reason of a rejected one. *)
Definition await (p : Settled) : Js (JsValue * JsValue) :=
  match p with
  | Rejected reason => throw reason
  | Resolved data error => ret (data, error)
  end.

Definition property (v : JsValue) (name : string) : Js JsValue :=
  match get_property v name with
  | inl x => ret x
  | inr e => throw e
  end.

(** The template literal [`Your feedback was classified as ${sentiment}`]:
    its text, or the TypeError of the conversion. *)
Definition template (sentiment : JsValue) : Js Description :=
  if printable sentiment then ret (ClassifiedAs sentiment)
  else throw TypeError.

Section Component.

Variable supabase : Supabase.

Local Open Scope js_scope.

Definition invoke (name text : string) : Js (JsValue * JsValue) :=
  fun w =>
    let reply := functions_invoke supabase (events w) name text in
    (emit (FunctionsInvoke name text) ;; await reply) w.

Definition insert (table : string) (row : FeedbackRow.row)
  : Js (JsValue * JsValue) :=
  fun w =>
    let reply := from_insert supabase (events w) table row in
    (emit (Insert table row) ;; await reply) w.

(** Lines 73-95. *)
Definition analyzeSentiment (text : string) : Js JsValue :=
  setIsAnalyzing true ;;
  try_catch_finally
    (r <- invoke "analyze-sentiment" text ;;
     let '(data, error) := r in
     if truthy error then throw error
     else
       sentiment <- property data "sentiment" ;;
       ret (if truthy sentiment then sentiment else JStr "Neutral"))
    (fun error =>
       console_error "Sentiment analysis error:" error ;;
       ret (JStr (keywordFallback text)))
    (setIsAnalyzing false).

(** Lines 97-152. *)
Definition handleSubmit (f : Form) : Js unit :=
  preventDefault ;;
  match studentInfo f with
  | None =>
      toast "Error" (Literal "Student information not found") destructive
  | Some info =>
      if negb (nonempty (subject f)) || negb (nonempty (category f))
         || negb (nonempty (trim (feedbackText f)))
      then
        toast "Missing Fields"
          (Literal "Please fill in all required fields") destructive
      else
        setIsSubmitting true ;;
        try_catch_finally
          (sentiment <- analyzeSentiment (feedbackText f) ;;
           r <- insert "feedback"
                  {| FeedbackRow.student_id := StudentInfo.id info;
                     FeedbackRow.subject := subject f;
                     FeedbackRow.category := category f;
                     FeedbackRow.feedback_text := feedbackText f;
                     FeedbackRow.sentiment := sentiment;
                     FeedbackRow.branch := StudentInfo.branch info;
                     FeedbackRow.semester := StudentInfo.semester info |} ;;
           let '(_, error) := r in
           if truthy error then throw error
           else
             description <- template sentiment ;;
             toast "Feedback Submitted" description default ;;
             navigate "/student")
          (fun error =>
             console_error "Error submitting feedback:" error ;;
             toast "Submission Failed"
               (Literal "Failed to submit feedback. Please try again.")
               destructive)
          (setIsSubmitting false)
  end.

End Component.

(** ** Observing a run

    [handleSubmit] returns nothing; what a caller learns is what the run
    adds to the event log. *)

Definition run_events (before after : World) : list Event :=
  skipn (List.length (events before)) (events after).

Definition submit_events (supabase : Supabase) (f : Form) (w : World)
  : list Event :=
  run_events w (snd (handleSubmit supabase f w)).

Definition is_call (e : Event) : bool :=
  match e with
  | FunctionsInvoke _ _ | Insert _ _ => true
  | _ => false
  end.

(** The calls of a run to the remote classifier and to the record store. *)
Definition network_calls (supabase : Supabase) (f : Form) (w : World)
  : list Event :=
  filter is_call (submit_events supabase f w).

Inductive SubmissionError : Type :=
| MissingIdentity
| MissingFields
| PersistenceFailed.

Inductive SubmitResult : Type :=
| Ok (label : JsValue)
| Err (e : SubmissionError).

(** The result a toast announces, by its title. *)
Definition announced (e : Event) : option SubmitResult :=
  match e with
  | Toast title description _ =>
      if title =? "Error" then Some (Err MissingIdentity)
      else if title =? "Missing Fields" then Some (Err MissingFields)
      else if title =? "Submission Failed" then Some (Err PersistenceFailed)
      else if title =? "Feedback Submitted" then
        match description with
        | ClassifiedAs sentiment => Some (Ok sentiment)
        | Literal _ => None
        end
      else None
  | _ => None
  end.

Fixpoint results (es : list Event) : list SubmitResult :=
  match es with
  | [] => []
  | e :: es' =>
      match announced e with
      | Some r => r :: results es'
      | None => results es'
      end
  end.

(** The results one [handleSubmit] run announces through its toasts. *)
Definition submit (supabase : Supabase) (f : Form) (w : World)
  : list SubmitResult :=
  results (submit_events supabase f w).

(** An awaited call followed by [if (error) throw error] fails when the
    promise rejects or resolves with a truthy [error]; [thrown] is what
    then reaches the enclosing [catch]. *)
Definition thrown (reply : Settled) : option JsValue :=
  match reply with
  | Rejected reason => Some reason
  | Resolved _ error => if truthy error then Some error else None
  end.

Definition failed (reply : Settled) : bool :=
  match thrown reply with
  | Some _ => true
  | None => false
  end.

(** What [handleSubmit] does once the insert has settled. *)
Definition store_log (reply : Settled) (sentiment : JsValue) : list Event :=
  let caught error :=
    [ConsoleError "Error submitting feedback:" error;
     Toast "Submission Failed"
       (Literal "Failed to submit feedback. Please try again.")
       destructive] in
  match thrown reply with
  | Some error => caught error
  | None =>
      if printable sentiment then
        [Toast "Feedback Submitted" (ClassifiedAs sentiment) default;
         Navigate "/student"]
      else caught TypeError
  end.

(** The closed enumeration of sentiment labels. *)
Definition is_label (v : JsValue) : bool :=
  match v with
  | JStr s => (s =? "Positive") || (s =? "Neutral") || (s =? "Negative")
  | _ => false
  end.

(** The world in which [handleSubmit] starts the classification of a
    validated form: the event was cancelled and the submit flag is set. *)
Definition classifying (w : World) : World :=
  {| isSubmitting := true;
     isAnalyzing := isAnalyzing w;
     events := events w ++ [PreventDefault] |}.

Definition feedback_row (info : StudentInfo.info) (f : Form)
  (sentiment : JsValue) : FeedbackRow.row :=
  {| FeedbackRow.student_id := StudentInfo.id info;
     FeedbackRow.subject := subject f;
     FeedbackRow.category := category f;
     FeedbackRow.feedback_text := feedbackText f;
     FeedbackRow.sentiment := sentiment;
     FeedbackRow.branch := StudentInfo.branch info;
     FeedbackRow.semester := StudentInfo.semester info |}.

(** A form that passes both guards of [handleSubmit], for the student
    [info]. *)
Definition accepted (f : Form) (info : StudentInfo.info) : Prop :=
  studentInfo f = Some info /\
  nonempty (subject f) = true /\
  nonempty (category f) = true /\
  nonempty (trim (feedbackText f)) = true.

(** Backends and worlds used to evaluate the component. *)
Definition idle : World :=
  {| isSubmitting := false; isAnalyzing := false; events := [] |}.

Definition constant_backend (classifier store : Settled) : Supabase :=
  {| functions_invoke := fun _ _ _ => classifier;
     from_insert := fun _ _ _ => store |}.

Definition stored : Settled := Resolved JNull JNull.

Definition says (label : string) : Settled :=
  Resolved (JObj [("sentiment", JStr label)]) JNull.

Fixpoint replicate (n : nat) (c : ascii) : string :=
  match n with
  | O => EmptyString
  | S n' => String c (replicate n' c)
  end.

Definition alice : StudentInfo.info :=
  {| StudentInfo.id := "s-17"; StudentInfo.branch := "CSE";
     StudentInfo.semester := 5 |}.

Definition form_of (body : string) : Form :=
  {| studentInfo := Some alice; subject := "Algorithms";
     category := "Course Content"; feedbackText := body |}.

(** ** The rest of the submission page (src/SubmitFeedback.tsx) *)

(** The signed-in user that [useAuth] provides. *)
Module User.
Record user : Type := { id : string }.
End User.

(** How a [select] query settles: the promise rejects, or resolves with
    [data] ([null] or the typed result) and an [error] slot. *)
Inductive Fetched (A : Type) : Type :=
| FetchRejected (reason : JsValue)
| FetchResolved (data : option A) (error : JsValue).
Arguments FetchRejected {A} reason.
Arguments FetchResolved {A} data error.

(** Lines 63-71.  [students] answers the query on [user_id]; the result is
    the form after [setStudentInfo], or the rejection of the promise. *)
Definition fetchStudentInfo
  (students : option string -> Fetched StudentInfo.info)
  (user : option User.user) (f : Form) : Completion Form :=
  match students (option_map User.id user) with
  | FetchRejected reason => Throw reason
  | FetchResolved data _ =>
      match data with
      | Some info =>
          Normal {| studentInfo := Some info; subject := subject f;
                    category := category f; feedbackText := feedbackText f |}
      | None => Normal f
      end
  end.

(** Lines 57-61: the effect that runs when [user] changes. *)
Definition userEffect
  (students : option string -> Fetched StudentInfo.info)
  (user : option User.user) (f : Form) : Completion Form :=
  match user with
  | Some _ => fetchStudentInfo students user f
  | None => Normal f
  end.

(** Line 223: [disabled={isSubmitting || isAnalyzing}] on the submit
    button. *)
Definition submitDisabled (w : World) : bool :=
  isSubmitting w || isAnalyzing w.

Definition is_toast (e : Event) : bool :=
  match e with
  | Toast _ _ _ => true
  | _ => false
  end.

Definition is_navigate (e : Event) : bool :=
  match e with
  | Navigate _ => true
  | _ => false
  end.

(** ** The faculty dashboard (src/FacultyDashboard.tsx) *)

Module FeedbackItem.
Record item : Type := {
  id : string;
  subject : string;
  category : string;
  feedback_text : string;
  sentiment : string;
  branch : string;
  semester : Z;
  created_at : string
}.
End FeedbackItem.

(** An entry [{ name, value, color }] of the pie chart. *)
Module Slice.
Record slice : Type := { name : string; value : nat; color : string }.
End Slice.

(** An entry [{ name, count }] of a bar chart. *)
Module Bar.
Record bar : Type := { name : string; count : nat }.
End Bar.

(** The element [getSentimentBadge] builds. *)
Module Badge.
End Badge.

Module FacultyDashboard.

Definition countSentiment (label : string)
  (feedback : list FeedbackItem.item) : nat :=
  List.length
    (filter (fun f => FeedbackItem.sentiment f =? label) feedback).

(** Lines 47-51. *)
Definition sentimentData (feedback : list FeedbackItem.item)
  : list Slice.slice :=
  [ {| Slice.name := "Positive";
       Slice.value := countSentiment "Positive" feedback;
       Slice.color := "hsl(142, 76%, 36%)" |};
    {| Slice.name := "Neutral";
       Slice.value := countSentiment "Neutral" feedback;
       Slice.color := "hsl(220, 10%, 50%)" |};
    {| Slice.name := "Negative";
       Slice.value := countSentiment "Negative" feedback;
       Slice.color := "hsl(0, 84%, 60%)" |} ].

(** [existing.count++] on the entry that [acc.find] returned, the first
    one of that name; the array keeps its order. *)
Fixpoint increment (name : string) (acc : list Bar.bar) : list Bar.bar :=
  match acc with
  | [] => []
  | d :: rest =>
      if Bar.name d =? name
      then {| Bar.name := Bar.name d; Bar.count := S (Bar.count d) |} :: rest
      else d :: increment name rest
  end.

(** The callback of the two [reduce] calls, lines 53-61 and 63-71, for the
    field [key] of an item. *)
Definition tally (key : FeedbackItem.item -> string)
  (acc : list Bar.bar) (item : FeedbackItem.item) : list Bar.bar :=
  match find (fun d => Bar.name d =? key item) acc with
  | Some existing => increment (key item) acc
  | None => acc ++ [{| Bar.name := key item; Bar.count := 1 |}]
  end.

Definition branchData (feedback : list FeedbackItem.item) : list Bar.bar :=
  fold_left (tally FeedbackItem.branch) feedback [].

Definition categoryData (feedback : list FeedbackItem.item) : list Bar.bar :=
  fold_left (tally FeedbackItem.category) feedback [].


(** Line 84: [feedback.slice(0, 8)]. *)
Definition recentFeedback (feedback : list FeedbackItem.item)
  : list FeedbackItem.item :=
  firstn 8 feedback.

End FacultyDashboard.

(** The order in which the distinct values of a list first occur. *)
Fixpoint first_occurrences (seen l : list string) : list string :=
  match l with
  | [] => []
  | x :: l' =>
      if existsb (String.eqb x) seen then first_occurrences seen l'
      else x :: first_occurrences (seen ++ [x]) l'
  end.

(** The count a chart shows for [name]: that of its first entry of that
    name, and nothing when there is none. *)
Fixpoint count_of (name : string) (bars : list Bar.bar) : nat :=
  match bars with
  | [] => 0
  | d :: rest => if Bar.name d =? name then Bar.count d else count_of name rest
  end.

Definition occurrences (x : string) (l : list string) : nat :=
  List.length (filter (String.eqb x) l).

Definition total (bars : list Bar.bar) : nat :=
  fold_right (fun d n => Bar.count d + n) 0 bars.

Definition recognized (f : FeedbackItem.item) : bool :=
  (FeedbackItem.sentiment f =? "Positive")
  || (FeedbackItem.sentiment f =? "Neutral")
  || (FeedbackItem.sentiment f =? "Negative").

Definition sample_item (sentiment branch : string) : FeedbackItem.item :=
  {| FeedbackItem.id := "f-1"; FeedbackItem.subject := "Physics";
     FeedbackItem.category := "General";
     FeedbackItem.feedback_text := "ok"; FeedbackItem.sentiment := sentiment;
     FeedbackItem.branch := branch; FeedbackItem.semester := 3;
     FeedbackItem.created_at := "2025-01-10" |}.

(** ** Routing (src/App.tsx) *)

Module App.

(** What [useAuth] hands to the routes. *)
Record AuthContext : Type := {
  user : option User.user;
  role : option string;
  loading : bool
}.

Inductive Page : Type :=
| Auth
| AdminDashboard
| AdminFeedback
| AdminStudents
| FacultyDashboard
| StudentDashboard
| SubmitFeedback
| NotFound.

(** What a route shows: the loading screen, a [<Navigate>] or a page. *)
Inductive Element : Type :=
| LoadingScreen
| Navigate (to : string) (replace : bool)
| Render (page : Page).

(** [role === name], for a role that may be [null]. *)
Definition role_is (r : option string) (name : string) : bool :=
  match r with
  | Some s => s =? name
  | None => false
  end.

(** Lines 18-26. *)
Definition ProtectedRoute (auth : AuthContext) (allowedRoles : list string)
  (children : Page) : Element :=
  if loading auth then LoadingScreen
  else
    match user auth with
    | None => Navigate "/auth" true
    | Some _ =>
        match role auth with
        | Some r =>
            if nonempty r && negb (existsb (String.eqb r) allowedRoles)
            then Navigate "/auth" true
            else Render children
        | None => Render children
        end
    end.

(** Lines 28-53: [null] while loading, else the route table. *)
Definition AppRoutes (auth : AuthContext) : option (list (string * Element)) :=
  if loading auth then None
  else
    Some
      [ ("/auth",
         match user auth with
         | Some _ =>
             Navigate
               (if role_is (role auth) "admin" then "/admin"
                else if role_is (role auth) "faculty" then "/faculty"
                else "/student")
               false
         | None => Render Auth
         end);
        ("/", Navigate "/auth" true);
        ("/admin", ProtectedRoute auth ["admin"] AdminDashboard);
        ("/admin/feedback", ProtectedRoute auth ["admin"] AdminFeedback);
        ("/admin/students", ProtectedRoute auth ["admin"] AdminStudents);
        ("/faculty", ProtectedRoute auth ["faculty"] FacultyDashboard);
        ("/student", ProtectedRoute auth ["student"] StudentDashboard);
        ("/student/feedback", ProtectedRoute auth ["student"] SubmitFeedback);
        ("*", Render NotFound) ].

(** A string without its trailing slashes. *)
Fixpoint strip_slashes (s : string) : string :=
  match s with
  | EmptyString => EmptyString
  | String c s' =>
      match strip_slashes s' with
      | EmptyString =>
          if Ascii.eqb c "/" then EmptyString else String c EmptyString
      | t => String c t
      end
  end.

Fixpoint has_line_break (s : string) : bool :=
  match s with
  | EmptyString => false
  | String c s' =>
      Ascii.eqb c "010" || Ascii.eqb c "013" || has_line_break s'
  end.

(** Whether a route path matches a pathname, as the regular expression
    the router compiles for it decides.  For a path without parameters
    that is the path itself, any number of trailing slashes and the end
    of the pathname, compared without regard to letter case.  For the
    catch-all path it is a slash followed by any characters but line
    terminators. *)
Definition matches (path pathname : string) : bool :=
  if path =? "*" then prefix "/" pathname && negb (has_line_break pathname)
  else toLowerCase (strip_slashes pathname)
       =? toLowerCase (strip_slashes path).

(** The element shown at a location, given by its decoded pathname (an
    empty one counts as [/]): that of the route that matches it, a
    route with a path of its own before the catch-all, which ranks
    last; [None] when no route matches. *)
Definition element_at (routes : list (string * Element)) (location : string)
  : option Element :=
  let pathname := if location =? "" then "/" else location in
  match find (fun r => negb (fst r =? "*") && matches (fst r) pathname)
          routes with
  | Some r => Some (snd r)
  | None =>
      option_map snd
        (find (fun r => (fst r =? "*") && matches (fst r) pathname) routes)
  end.

(** The page reached from a location after at most [hops] renders,
    following each [<Navigate>]; [None] while the routes are not shown or
    when the last render still redirects. *)
Fixpoint settle (hops : nat) (auth : AuthContext) (path : string)
  : option Page :=
  match hops with
  | O => None
  | S hops' =>
      match AppRoutes auth with
      | None => None
      | Some routes =>
          match element_at routes path with
          | Some (Render page) => Some page
          | Some (Navigate to _) => settle hops' auth to
          | Some LoadingScreen | None => None
          end
      end
  end.

Definition is_dashboard (page : Page) : bool :=
  match page with
  | Auth | NotFound => false
  | _ => true
  end.

(** The role a page is meant for. *)
Definition audience (page : Page) : option string :=
  match page with
  | AdminDashboard | AdminFeedback | AdminStudents => Some "admin"
  | FacultyDashboard => Some "faculty"
  | StudentDashboard | SubmitFeedback => Some "student"
  | Auth | NotFound => None
  end.

Definition signed_in (r : option string) : AuthContext :=
  {| user := Some {| User.id := "u-1" |}; role := r; loading := false |}.

End App.

(** ** The sign-in page (src/Auth.tsx) *)

(** [parseInt(string)] without a radix: leading white space is skipped,
    then an optional sign and an optional [0x] prefix, then the longest
    run of digits is read.  The result is a Number, a double: the
    integer read when its magnitude is at most 2^53, where every integer
    is a double; beyond that the double depends on rounding and is left
    undetermined. *)
Module ParseInt.

Inductive Number : Type :=
| NaN
| Exact (z : Z)
| MinusZero
| Beyond (negative : bool).

Definition is_number (n : Number) : bool :=
  match n with
  | NaN => false
  | _ => true
  end.

Definition digit (radix : N) (c : ascii) : option N :=
  let n := N_of_ascii c in
  let value :=
    if ((48 <=? n) && (n <=? 57))%N then Some (n - 48)%N
    else if ((97 <=? n) && (n <=? 122))%N then Some (n - 87)%N
    else if ((65 <=? n) && (n <=? 90))%N then Some (n - 55)%N
    else None in
  match value with
  | Some d => if (d <? radix)%N then Some d else None
  | None => None
  end.

Fixpoint digits (radix : N) (s : string) (read : option N) : option N :=
  match s with
  | EmptyString => read
  | String c s' =>
      match digit radix c with
      | Some d =>
          digits radix s'
            (Some (match read with
                   | Some n => n * radix + d
                   | None => d
                   end)%N)
      | None => read
      end
  end.

(** The Number for the integer read, with its sign. *)
Definition number_of (negative : bool) (n : N) : Number :=
  if (n =? 0)%N then (if negative then MinusZero else Exact 0)
  else if (n <=? 2 ^ 53)%N
       then Exact (if negative then - Z.of_N n else Z.of_N n)%Z
       else Beyond negative.

Definition parseInt (s : string) : Number :=
  let trimmed := trimStart s in
  let '(negative, unsigned) :=
    match trimmed with
    | String "-" rest => (true, rest)
    | String "+" rest => (false, rest)
    | _ => (false, trimmed)
    end in
  let '(radix, body) :=
    match unsigned with
    | String "0" (String "x" rest) => (16%N, rest)
    | String "0" (String "X" rest) => (16%N, rest)
    | _ => (10%N, unsigned)
    end in
  match digits radix body None with
  | Some n => number_of negative n
  | None => NaN
  end.

End ParseInt.

Module Auth.

Inductive Role : Type := admin | faculty | student.

(** The state the two handlers read. *)
Record Fields : Type := {
  loginEmail : string;
  loginPassword : string;
  signupEmail : string;
  signupPassword : string;
  fullName : string;
  role : Role;
  rollNumber : string;
  branch : string;
  semester : string
}.

(** The [studentData] argument of [signUp]; [semester] is a Number as
    [parseInt] returns it. *)
Module StudentData.
Record data : Type := {
  rollNumber : string;
  branch : string;
  semester : ParseInt.Number
}.
End StudentData.

(** An issue of a schema: one with the message the schema gives, or the
    issue the library raises, with its own message, for a [NaN] where a
    number is expected. *)
Inductive Issue : Type :=
| Custom (message : string)
| NotANumber.

(** The description of a toast: a literal, the message of an issue, or
    the value of [error.message]. *)
Inductive Shown : Type :=
| Text (s : string)
| IssueMessage (issue : Issue)
| MessageOf (message : JsValue).

Inductive Event : Type :=
| PreventDefault
| Toast (title : string) (description : Shown) (variant : Variant)
| SignIn (email password : string)
| SignUp (email password fullName : string) (role : Role)
    (studentData : option StudentData.data).

(** How [signIn] and [signUp] settle: the promise rejects, or resolves
    to an object with an [error] field. *)
Inductive Outcome : Type :=
| Rejects (reason : JsValue)
| Resolves (error : JsValue).

(** The two functions of [useAuth]; an answer may depend on what
    happened before. *)
Record Service : Type := {
  signIn : list Event -> string -> string -> Outcome;
  signUp : list Event -> string -> string -> string -> Role
           -> option StudentData.data -> Outcome
}.

Record State : Type := { isLoading : bool; log : list Event }.

Definition M (A : Type) : Type := State -> Completion A * State.

Definition ret {A} (a : A) : M A := fun st => (Normal a, st).

Definition throw {A} (e : JsValue) : M A := fun st => (Throw e, st).

Definition bind {A B} (m : M A) (k : A -> M B) : M B :=
  fun st =>
    match m st with
    | (Normal a, st') => k a st'
    | (Throw e, st') => (Throw e, st')
    end.

(** [try { body } finally { cleanup }]. *)
Definition try_finally {A} (body : M A) (cleanup : M unit) : M A :=
  fun st =>
    let '(c, st1) := body st in
    match cleanup st1 with
    | (Normal _, st2) => (c, st2)
    | (Throw e, st2) => (Throw e, st2)
    end.

Definition emit (e : Event) : M unit :=
  fun st => (Normal tt, {| isLoading := isLoading st; log := log st ++ [e] |}).

Definition setIsLoading (b : bool) : M unit :=
  fun st => (Normal tt, {| isLoading := b; log := log st |}).

Definition toast (title : string) (description : Shown) (variant : Variant)
  : M unit :=
  emit (Toast title description variant).

(** [await p] for a promise of [{ error }]. *)
Definition await (p : Outcome) : M JsValue :=
  match p with
  | Rejects reason => throw reason
  | Resolves error => ret error
  end.

Definition message (error : JsValue) : M JsValue :=
  match get_property error "message" with
  | inl m => ret m
  | inr e => throw e
  end.

(** Lines 49-63: the path [navigateByRole] passes to [navigate]. *)
Definition navigateByRole (role : string) : string :=
  if role =? "admin" then "/admin"
  else if role =? "faculty" then "/faculty"
  else if role =? "student" then "/student"
  else "/".

(** Lines 43-47: the navigation of the effect, if any. *)
Definition roleEffect (auth : App.AuthContext) : option string :=
  match App.user auth, App.role auth with
  | Some _, Some userRole =>
      if negb (App.loading auth) && nonempty userRole
      then Some (navigateByRole userRole)
      else None
  | _, _ => None
  end.

Section Handlers.

(** The e-mail test of the schema library. *)
Variable is_email : string -> bool.

Variable auth : Service.

(** The issues of [loginSchema.safeParse], lines 14-17, in the order of
    the keys of the schema. *)
Definition loginSchema (email password : string) : list Issue :=
  ((if is_email email then [] else [Custom "Invalid email address"])
   ++ (if (6 <=? String.length password)%nat then []
       else [Custom "Password must be at least 6 characters"]))%list.

(** The issues of [signupSchema.safeParse], lines 19-25; [semester] is
    the parsed number when the key is present. *)
Definition signupSchema (email password fullName : string)
  (semester : option ParseInt.Number) : list Issue :=
  (loginSchema email password
   ++ (if (2 <=? String.length fullName)%nat then []
       else [Custom "Name must be at least 2 characters"])
   ++ match semester with
      | Some ParseInt.NaN => [NotANumber]
      | _ => []
      end)%list.

Local Notation "x <- m ;; k" := (bind m (fun x => k))
  (at level 61, m at next level, right associativity).
Local Notation "m ;; k" := (bind m (fun _ => k))
  (at level 61, right associativity).

Definition callSignIn (email password : string) : M JsValue :=
  fun st =>
    let reply := signIn auth (log st) email password in
    (emit (SignIn email password) ;; await reply) st.

Definition callSignUp (email password name : string) (r : Role)
  (studentData : option StudentData.data) : M JsValue :=
  fun st =>
    let reply := signUp auth (log st) email password name r studentData in
    (emit (SignUp email password name r studentData) ;; await reply) st.

(** Lines 65-91. *)
Definition handleLogin (f : Fields) : M unit :=
  emit PreventDefault ;;
  setIsLoading true ;;
  try_finally
    (match loginSchema (loginEmail f) (loginPassword f) with
     | issue :: _ =>
         toast "Validation Error" (IssueMessage issue) destructive
     | [] =>
         error <- callSignIn (loginEmail f) (loginPassword f) ;;
         if truthy error then
           m <- message error ;;
           toast "Login Failed" (MessageOf m) destructive
         else ret tt
     end)
    (setIsLoading false).

Definition is_student (r : Role) : bool :=
  match r with
  | student => true
  | _ => false
  end.

(** Lines 93-147. *)
Definition handleSignup (f : Fields) : M unit :=
  emit PreventDefault ;;
  setIsLoading true ;;
  try_finally
    (match signupSchema (signupEmail f) (signupPassword f) (fullName f)
             (if is_student (role f)
              then Some (ParseInt.parseInt (semester f)) else None) with
     | issue :: _ =>
         toast "Validation Error" (IssueMessage issue) destructive
     | [] =>
         if is_student (role f)
            && (negb (nonempty (rollNumber f)) || negb (nonempty (branch f)))
         then
           toast "Missing Information"
             (Text "Please fill in all student details") destructive
         else
           let studentData :=
             if is_student (role f) then
               Some {| StudentData.rollNumber := rollNumber f;
                       StudentData.branch := branch f;
                       StudentData.semester :=
                         ParseInt.parseInt (semester f) |}
             else None in
           error <- callSignUp (signupEmail f) (signupPassword f)
                      (fullName f) (role f) studentData ;;
           if truthy error then
             m <- message error ;;
             toast "Registration Failed" (MessageOf m) destructive
           else
             toast "Account Created"
               (Text "You can now sign in with your credentials") default
     end)
    (setIsLoading false).

End Handlers.

Definition is_call (e : Event) : bool :=
  match e with
  | SignIn _ _ | SignUp _ _ _ _ _ => true
  | _ => false
  end.

Definition is_toast (e : Event) : bool :=
  match e with
  | Toast _ _ _ => true
  | _ => false
  end.

(** The [studentData] that [handleSignup] builds, lines 125-129. *)
Definition studentData_of (f : Fields) : option StudentData.data :=
  if is_student (role f) then
    Some {| StudentData.rollNumber := rollNumber f;
            StudentData.branch := branch f;
            StudentData.semester := ParseInt.parseInt (semester f) |}
  else None.

(** What a run adds to the log. *)
Definition added (before after : State) : list Event :=
  skipn (List.length (log before)) (log after).

Definition login_events (is_email : string -> bool) (auth : Service)
  (f : Fields) (st : State) : list Event :=
  added st (snd (handleLogin is_email auth f st)).

Definition signup_events (is_email : string -> bool) (auth : Service)
  (f : Fields) (st : State) : list Event :=
  added st (snd (handleSignup is_email auth f st)).

Definition start : State := {| isLoading := false; log := [] |}.

Definition always (o : Outcome) : Service :=
  {| signIn := fun _ _ _ => o; signUp := fun _ _ _ _ _ _ => o |}.

(** A stand-in for the e-mail test: an at sign somewhere. *)
Definition has_at (s : string) : bool := includes s "@".

Definition sample : Fields :=
  {| loginEmail := "ann@uni.edu"; loginPassword := "secret1";
     signupEmail := "bob@uni.edu"; signupPassword := "secret2";
     fullName := "Bob Roy"; role := faculty; rollNumber := "CS2024001";
     branch := "CSE"; semester := "3" |}.

End Auth.

(** ** String lemmas *)

Section StringFacts.

Lemma prefix_append (k s : string) :
  prefix k s = true <-> exists post, s = k ++ post.
Proof.
  revert s; induction k as [|c k IH]; intros s.
  - destruct s; simpl; split; eauto.
  - destruct s as [|d s]; simpl.
    + split; [discriminate | intros [post H]; discriminate].
    + destruct (ascii_dec c d) as [->|Hne].
      * rewrite IH. split; intros [post H]; exists post; congruence.
      * split; [discriminate | intros [post H]; congruence].
Qed.

Lemma includes_unfold (s k : string) :
  includes s k =
    prefix k s || match s with
                  | EmptyString => false
                  | String _ s' => includes s' k
                  end.
Proof.
  destruct s as [|c s]; cbn [includes];
    [destruct (prefix k "") | destruct (prefix k (String c s))];
    reflexivity.
Qed.

Lemma includes_contains (s k : string) :
  includes s k = true <-> contains s k.
Proof.
  unfold contains. induction s as [|c s IH];
    rewrite includes_unfold, orb_true_iff, prefix_append.
  - split.
    + intros [[post H] | H]; [| discriminate]. exists "", post. exact H.
    + intros (pre & post & H). left. destruct pre; [| discriminate].
      exists post. exact H.
  - rewrite IH. split.
    + intros [[post H] | (pre & post & H)].
      * exists "", post. exact H.
      * exists (String c pre), post. simpl. congruence.
    + intros (pre & post & H). destruct pre as [|d pre]; simpl in H.
      * left. exists post. exact H.
      * right. exists pre, post. congruence.
Qed.

Lemma existsb_contains_any (ks : list string) (s : string) :
  existsb (includes s) ks = true <-> contains_any ks s.
Proof.
  unfold contains_any. rewrite existsb_exists.
  split; intros (k & Hin & H); exists k; split; auto;
    apply includes_contains; exact H.
Qed.

Lemma keywordFallback_existsb (text : string) :
  keywordFallback text =
    if existsb (includes (toLowerCase text)) positive_keywords then "Positive"
    else if existsb (includes (toLowerCase text)) negative_keywords
         then "Negative"
         else "Neutral".
Proof.
  unfold keywordFallback. cbn [existsb positive_keywords negative_keywords].
  rewrite !orb_false_r, !orb_assoc. reflexivity.
Qed.

Lemma trimStart_all_space (s : string) :
  all_space s = true <-> trimStart s = "".
Proof.
  induction s as [|c s IH]; simpl.
  - tauto.
  - destruct (is_space c); simpl; [exact IH |].
    split; discriminate.
Qed.

Lemma trimEnd_nonempty (s : string) :
  all_space s = false -> trimEnd s <> "".
Proof.
  induction s as [|c s IH]; simpl; [discriminate |].
  destruct (is_space c) eqn:Hc; simpl.
  - intros H. specialize (IH H). destruct (trimEnd s); congruence.
  - intros _. destruct (trimEnd s); discriminate.
Qed.

Lemma trimStart_head (s : string) :
  trimStart s = "" \/
  exists c t, trimStart s = String c t /\ is_space c = false.
Proof.
  induction s as [|c s IH]; simpl; [now left |].
  destruct (is_space c) eqn:Hc; [exact IH |].
  right. eauto.
Qed.

(** The trimmed text is empty exactly when the text is made of white
    space only. *)
Lemma trim_empty_iff (s : string) :
  nonempty (trim s) = false <-> all_space s = true.
Proof.
  unfold trim. rewrite trimStart_all_space.
  destruct (trimStart_head s) as [-> | (c & t & -> & Hc)].
  - simpl. tauto.
  - split; [| discriminate].
    intros H. exfalso.
    apply (trimEnd_nonempty (String c t)).
    + simpl. rewrite Hc. reflexivity.
    + destruct (trimEnd (String c t)); [reflexivity | discriminate].
Qed.

End StringFacts.

(** The classifier and the string operations on the sample texts of the
    specification. *)

Example fallback_negative :
  keywordFallback "this was disappointed and poor" = "Negative".
Proof. reflexivity. Qed.

Example fallback_neutral : keywordFallback "it was fine" = "Neutral".
Proof. reflexivity. Qed.

Example fallback_ignores_case : keywordFallback "EXCELLENT labs" = "Positive".
Proof. reflexivity. Qed.

Example fallback_matches_inside_words :
  keywordFallback "I lost my badge" = "Negative".
Proof. reflexivity. Qed.

Example trim_both_ends :
  trim (String "009" "  well taught " ++ String "010" "") = "well taught".
Proof. reflexivity. Qed.

(** ** Claim C1 *)

(** C1: the fallback keyword classifier, applied to the lower-cased text,
    answers Positive when the text contains one of the positive keywords,
    otherwise Negative when it contains one of the negative keywords,
    otherwise Neutral; a text that contains a keyword of each set is
    Positive, the positive set being tested first. *)
Theorem fallback_keyword_policy (text : string) :
  let lowerText := toLowerCase text in
  (contains_any positive_keywords lowerText ->
   keywordFallback text = "Positive") /\
  (~ contains_any positive_keywords lowerText ->
   contains_any negative_keywords lowerText ->
   keywordFallback text = "Negative") /\
  (~ contains_any positive_keywords lowerText ->
   ~ contains_any negative_keywords lowerText ->
   keywordFallback text = "Neutral") /\
  (contains_any positive_keywords lowerText ->
   contains_any negative_keywords lowerText ->
   keywordFallback text = "Positive").
Proof.
  intros lowerText. subst lowerText.
  rewrite keywordFallback_existsb.
  destruct (existsb (includes (toLowerCase text)) positive_keywords) eqn:Hp;
    destruct (existsb (includes (toLowerCase text)) negative_keywords) eqn:Hn;
    repeat split; intros; try reflexivity; exfalso;
    repeat match goal with
      | H : ~ contains_any _ _ |- _ =>
          rewrite <- existsb_contains_any in H
      | H : contains_any _ _ |- _ =>
          rewrite <- existsb_contains_any in H
      end; congruence.
Qed.

Lemma fallback_keyword_policy_witness :
  contains_any positive_keywords (toLowerCase "Great but TERRIBLE") /\
  contains_any negative_keywords (toLowerCase "Great but TERRIBLE") /\
  keywordFallback "Great but TERRIBLE" = "Positive".
Proof.
  assert (Hp : contains_any positive_keywords
                 (toLowerCase "Great but TERRIBLE")).
  { exists "great". split; [simpl; tauto |].
    exists "", " but terrible". reflexivity. }
  assert (Hn : contains_any negative_keywords
                 (toLowerCase "Great but TERRIBLE")).
  { exists "terrible". split; [simpl; tauto |].
    exists "great but ", "". reflexivity. }
  split; [exact Hp |]. split; [exact Hn |].
  exact (proj2 (proj2 (proj2
           (fallback_keyword_policy "Great but TERRIBLE"))) Hp Hn).
Defined.

(** ** Runs of the two closures *)

Section Runs.

Variable supabase : Supabase.

Lemma run_events_app (w : World) (s a : bool) (es : list Event) :
  run_events w {| isSubmitting := s; isAnalyzing := a;
                  events := events w ++ es |} = es.
Proof.
  unfold run_events. cbn [events].
  rewrite skipn_app, skipn_all, Nat.sub_diag. reflexivity.
Qed.

Lemma results_app (es es' : list Event) :
  results (es ++ es') = (results es ++ results es')%list.
Proof.
  induction es as [|e es IH]; simpl; [reflexivity |].
  destruct (announced e); simpl; rewrite IH; reflexivity.
Qed.

(** What [analyzeSentiment] does for a given reply of the edge function:
    the value it returns and what it logs after the call. *)
Lemma analyzeSentiment_reply (text : string) (w : World) :
  let reply := functions_invoke supabase (events w) "analyze-sentiment" text in
  let after log :=
    {| isSubmitting := isSubmitting w; isAnalyzing := false;
       events := events w ++ FunctionsInvoke "analyze-sentiment" text :: log |} in
  let fallback e :=
    (Normal (JStr (keywordFallback text)),
     after [ConsoleError "Sentiment analysis error:" e]) in
  analyzeSentiment supabase text w =
    match reply with
    | Rejected reason => fallback reason
    | Resolved data error =>
        if truthy error then fallback error
        else match get_property data "sentiment" with
             | inr e => fallback e
             | inl sentiment =>
                 (Normal (if truthy sentiment then sentiment
                          else JStr "Neutral"), after [])
             end
    end.
Proof.
  cbv zeta.
  unfold analyzeSentiment, bind, try_catch_finally, invoke, setIsAnalyzing,
    console_error, emit, await, property, ret, throw.
  cbn [events isSubmitting isAnalyzing].
  destruct (functions_invoke supabase (events w) "analyze-sentiment" text)
    as [reason | data error]; cbn.
  - rewrite <- app_assoc. reflexivity.
  - destruct (truthy error); cbn.
    + rewrite <- app_assoc. reflexivity.
    + destruct (get_property data "sentiment"); cbn.
      * reflexivity.
      * rewrite <- app_assoc. reflexivity.
Qed.

Lemma keywordFallback_label (text : string) :
  is_label (JStr (keywordFallback text)) = true.
Proof.
  unfold keywordFallback.
  repeat match goal with
    | |- context [if ?b then _ else _] => destruct b
    end; reflexivity.
Qed.

Lemma label_truthy (v : JsValue) : is_label v = true -> truthy v = true.
Proof.
  destruct v as [| | b | n | s | items | fields]; simpl; try discriminate.
  destruct s; [discriminate | reflexivity].
Qed.

(** [analyzeSentiment] always returns, with a non-empty value, after one
    call of the edge function and nothing else that reaches the record
    store or the user. *)
Lemma analyzeSentiment_returns (text : string) (w : World) :
  exists v log,
    analyzeSentiment supabase text w =
      (Normal v,
       {| isSubmitting := isSubmitting w; isAnalyzing := false;
          events := events w
                    ++ FunctionsInvoke "analyze-sentiment" text :: log |})
    /\ truthy v = true
    /\ filter is_call log = []
    /\ results log = [].
Proof.
  rewrite analyzeSentiment_reply. cbv zeta.
  pose proof (label_truthy _ (keywordFallback_label text)) as Hfb.
  destruct (functions_invoke supabase (events w) "analyze-sentiment" text)
    as [reason | data error].
  - eexists _, _. split; [reflexivity |]. auto.
  - destruct (truthy error).
    + eexists _, _. split; [reflexivity |]. auto.
    + destruct (get_property data "sentiment") as [sentiment | e].
      * eexists _, _. split; [reflexivity |].
        destruct (truthy sentiment) eqn:Hs; auto.
      * eexists _, _. split; [reflexivity |]. auto.
Qed.

Lemma handleSubmit_unresolved (f : Form) (w : World) :
  studentInfo f = None ->
  handleSubmit supabase f w =
    (Normal tt,
     {| isSubmitting := isSubmitting w; isAnalyzing := isAnalyzing w;
        events := events w
                  ++ [PreventDefault;
                      Toast "Error"
                        (Literal "Student information not found")
                        destructive] |}).
Proof.
  intros Hs. unfold handleSubmit. rewrite Hs.
  unfold bind, preventDefault, toast, emit. cbn [events isSubmitting isAnalyzing].
  rewrite <- app_assoc. reflexivity.
Qed.

Lemma handleSubmit_blank (f : Form) (info : StudentInfo.info) (w : World) :
  studentInfo f = Some info ->
  nonempty (subject f) && nonempty (category f)
    && nonempty (trim (feedbackText f)) = false ->
  handleSubmit supabase f w =
    (Normal tt,
     {| isSubmitting := isSubmitting w; isAnalyzing := isAnalyzing w;
        events := events w
                  ++ [PreventDefault;
                      Toast "Missing Fields"
                        (Literal "Please fill in all required fields")
                        destructive] |}).
Proof.
  intros Hs Hb. unfold handleSubmit. rewrite Hs.
  replace (negb (nonempty (subject f)) || negb (nonempty (category f))
           || negb (nonempty (trim (feedbackText f)))) with true
    by (destruct (nonempty (subject f)), (nonempty (category f)),
          (nonempty (trim (feedbackText f))); simpl in *; congruence).
  unfold bind, preventDefault, toast, emit. cbn [events isSubmitting isAnalyzing].
  rewrite <- app_assoc. reflexivity.
Qed.

Lemma handleSubmit_accepted (f : Form) (info : StudentInfo.info) (w : World)
  (v : JsValue) (w1 : World) :
  accepted f info ->
  analyzeSentiment supabase (feedbackText f) (classifying w) = (Normal v, w1) ->
  handleSubmit supabase f w =
    (Normal tt,
     {| isSubmitting := false; isAnalyzing := isAnalyzing w1;
        events :=
          events w1
          ++ Insert "feedback" (feedback_row info f v)
             :: store_log (from_insert supabase (events w1) "feedback"
                             (feedback_row info f v)) v |}).
Proof.
  intros (Hs & Hsub & Hcat & Hbody) Hrun.
  unfold handleSubmit. rewrite Hs, Hsub, Hcat, Hbody. cbn [negb orb].
  unfold classifying in Hrun.
  unfold bind at 1. unfold preventDefault, emit at 1.
  unfold bind at 1. unfold setIsSubmitting.
  cbn [events isSubmitting isAnalyzing].
  unfold try_catch_finally, bind at 1. rewrite Hrun.
  fold (feedback_row info f v).
  unfold store_log, thrown, insert, template, bind, emit, await, toast,
    navigate, console_error, emit, ret, throw.
  cbn [events isSubmitting isAnalyzing].
  destruct (from_insert supabase (events w1) "feedback" (feedback_row info f v))
    as [reason | data error]; cbn.
  - rewrite <- !app_assoc. reflexivity.
  - destruct (truthy error); cbn; [rewrite <- !app_assoc; reflexivity |].
    destruct (printable v); cbn; rewrite <- !app_assoc; reflexivity.
Qed.

(** The whole run on a form that passes the guards. *)
Lemma submit_events_accepted (f : Form) (info : StudentInfo.info) (w : World)
  (v : JsValue) (w1 : World) :
  accepted f info ->
  analyzeSentiment supabase (feedbackText f) (classifying w) = (Normal v, w1) ->
  exists log,
    filter is_call log = [] /\ results log = [] /\
    truthy v = true /\ isAnalyzing w1 = false /\
    submit_events supabase f w =
      PreventDefault
      :: FunctionsInvoke "analyze-sentiment" (feedbackText f)
      :: log
      ++ Insert "feedback" (feedback_row info f v)
         :: store_log (from_insert supabase (events w1) "feedback"
                         (feedback_row info f v)) v.
Proof.
  intros Hacc Hrun.
  destruct (analyzeSentiment_returns (feedbackText f) (classifying w))
    as (v' & log & Hrun' & Hv & Hcalls & Hres).
  rewrite Hrun in Hrun'. injection Hrun' as -> ->.
  exists log. repeat split; auto.
  unfold submit_events.
  rewrite (handleSubmit_accepted f info w v' _ Hacc Hrun).
  cbn [snd events isAnalyzing classifying].
  rewrite <- !app_assoc. cbn [app].
  apply run_events_app.
Qed.

Lemma store_log_calls (reply : Settled) (v : JsValue) :
  filter is_call (store_log reply v) = [].
Proof.
  unfold store_log. destruct (thrown reply), (printable v); reflexivity.
Qed.

Lemma store_log_results (reply : Settled) (v : JsValue) :
  results (store_log reply v) =
    [if failed reply || negb (printable v) then Err PersistenceFailed
     else Ok v].
Proof.
  unfold store_log, failed.
  destruct (thrown reply), (printable v); reflexivity.
Qed.

Lemma network_calls_accepted (f : Form) (info : StudentInfo.info) (w : World)
  (v : JsValue) (w1 : World) :
  accepted f info ->
  analyzeSentiment supabase (feedbackText f) (classifying w) = (Normal v, w1) ->
  network_calls supabase f w =
    [FunctionsInvoke "analyze-sentiment" (feedbackText f);
     Insert "feedback" (feedback_row info f v)].
Proof.
  intros Hacc Hrun.
  destruct (submit_events_accepted f info w v w1 Hacc Hrun)
    as (log & Hcalls & _ & _ & _ & Hev).
  unfold network_calls. rewrite Hev. cbn [filter is_call].
  rewrite filter_app, Hcalls. cbn [filter is_call app].
  rewrite store_log_calls. reflexivity.
Qed.

Lemma submit_accepted (f : Form) (info : StudentInfo.info) (w : World)
  (v : JsValue) (w1 : World) :
  accepted f info ->
  analyzeSentiment supabase (feedbackText f) (classifying w) = (Normal v, w1) ->
  submit supabase f w =
    [if failed (from_insert supabase (events w1) "feedback"
                  (feedback_row info f v))
        || negb (printable v)
     then Err PersistenceFailed else Ok v].
Proof.
  intros Hacc Hrun.
  destruct (submit_events_accepted f info w v w1 Hacc Hrun)
    as (log & _ & Hres & _ & _ & Hev).
  unfold submit. rewrite Hev. cbn [results announced].
  rewrite results_app, Hres. cbn [results announced app].
  apply store_log_results.
Qed.

End Runs.

(** ** Claims C2 to C4: classification *)

Section Classification.

Variable supabase : Supabase.

Lemma handleSubmit_completes (f : Form) (w : World) :
  fst (handleSubmit supabase f w) = Normal tt.
Proof.
  destruct (studentInfo f) as [info |] eqn:Hs.
  - destruct (nonempty (subject f) && nonempty (category f)
              && nonempty (trim (feedbackText f))) eqn:Hg.
    + apply andb_true_iff in Hg. destruct Hg as [Hg Hbody].
      apply andb_true_iff in Hg. destruct Hg as [Hsub Hcat].
      destruct (analyzeSentiment_returns supabase (feedbackText f)
                  (classifying w)) as (v & log & Hrun & _).
      erewrite handleSubmit_accepted; [reflexivity | | exact Hrun].
      repeat split; eassumption.
    + erewrite handleSubmit_blank; [reflexivity | exact Hs | exact Hg].
  - rewrite handleSubmit_unresolved by exact Hs. reflexivity.
Qed.

Lemma analyzeSentiment_failed (text : string) (w : World) :
  failed (functions_invoke supabase (events w) "analyze-sentiment" text)
    = true ->
  exists w',
    analyzeSentiment supabase text w
      = (Normal (JStr (keywordFallback text)), w').
Proof.
  intros Hfail. rewrite analyzeSentiment_reply. cbv zeta.
  unfold failed, thrown in Hfail.
  destruct (functions_invoke supabase (events w) "analyze-sentiment" text)
    as [reason | data error].
  - eexists. reflexivity.
  - destruct (truthy error); [| discriminate]. eexists. reflexivity.
Qed.

End Classification.



(** C3, as stated, fails: a successful call that answers "positive" in
    lower case, which is none of the three labels, is not turned into
    Neutral. *)
Lemma unrecognized_label_is_kept :
  fst (analyzeSentiment (constant_backend (says "positive") stored)
         "it was fine" idle) = Normal (JStr "positive")
  /\ is_label (JStr "positive") = false
  /\ JStr "positive" <> JStr "Neutral".
Proof. repeat split; try reflexivity. discriminate. Qed.

(** C3, amended: when the call succeeds and the sentiment of its data is
    empty or absent, [analyzeSentiment] returns Neutral; a non-empty
    sentiment is returned as it is, whether or not it is one of the three
    labels. *)
Theorem empty_label_is_neutral (supabase : Supabase) (text : string)
  (w : World) (data error sentiment : JsValue) :
  functions_invoke supabase (events w) "analyze-sentiment" text
    = Resolved data error ->
  truthy error = false ->
  get_property data "sentiment" = inl sentiment ->
  (truthy sentiment = false ->
   fst (analyzeSentiment supabase text w) = Normal (JStr "Neutral"))
  /\ (truthy sentiment = true ->
      fst (analyzeSentiment supabase text w) = Normal sentiment).
Proof.
  intros Hreply Herr Hprop.
  rewrite analyzeSentiment_reply. cbv zeta.
  rewrite Hreply, Herr, Hprop.
  split; intros ->; reflexivity.
Qed.

Lemma empty_label_is_neutral_witness :
  fst (analyzeSentiment
         (constant_backend (Resolved (JObj [("score", JNum 3)]) JNull) stored)
         "great but terrible" idle) = Normal (JStr "Neutral")
  /\ fst (analyzeSentiment (constant_backend (says "") stored)
            "great but terrible" idle) = Normal (JStr "Neutral").
Proof.
  split.
  - apply (empty_label_is_neutral
             (constant_backend (Resolved (JObj [("score", JNum 3)]) JNull)
                stored)
             "great but terrible" idle
             (JObj [("score", JNum 3)]) JNull JUndefined);
      reflexivity.
  - apply (empty_label_is_neutral (constant_backend (says "") stored)
             "great but terrible" idle
             (JObj [("sentiment", JStr "")]) JNull (JStr ""));
      reflexivity.
Defined.

(** C4: when the call of the remote classifier fails, by a rejected
    promise or by an error in its reply, [analyzeSentiment] returns the
    result of the keyword fallback for that text and throws nothing;
    [handleSubmit] then still completes normally, and on an accepted form
    hands the record with the fallback label to the record store. *)
Theorem classifier_failure_falls_back (supabase : Supabase) (f : Form)
  (w : World) :
  let text := feedbackText f in
  (failed (functions_invoke supabase (events w) "analyze-sentiment" text)
     = true ->
   fst (analyzeSentiment supabase text w)
     = Normal (JStr (keywordFallback text)))
  /\ (failed (functions_invoke supabase (events (classifying w))
                "analyze-sentiment" text) = true ->
      fst (handleSubmit supabase f w) = Normal tt
      /\ forall info,
           accepted f info ->
           network_calls supabase f w =
             [FunctionsInvoke "analyze-sentiment" text;
              Insert "feedback"
                (feedback_row info f (JStr (keywordFallback text)))]).
Proof.
  cbv zeta. split.
  - intros Hfail.
    destruct (analyzeSentiment_failed supabase _ _ Hfail) as (w' & ->).
    reflexivity.
  - intros Hfail. split; [apply handleSubmit_completes |].
    intros info Hacc.
    destruct (analyzeSentiment_failed supabase _ _ Hfail) as (w' & Hrun).
    exact (network_calls_accepted supabase f info w _ w' Hacc Hrun).
Qed.

Lemma classifier_failure_falls_back_witness :
  fst (analyzeSentiment (constant_backend (Rejected (JStr "Failed to fetch")) stored)
         "The labs were terrible" idle)
    = Normal (JStr "Negative")
  /\ fst (handleSubmit (constant_backend (Rejected (JStr "Failed to fetch")) stored)
            (form_of "The labs were terrible") idle) = Normal tt
  /\ network_calls (constant_backend (Rejected (JStr "Failed to fetch")) stored)
       (form_of "The labs were terrible") idle =
       [FunctionsInvoke "analyze-sentiment" "The labs were terrible";
        Insert "feedback"
          (feedback_row alice (form_of "The labs were terrible")
             (JStr "Negative"))].
Proof.
  destruct (classifier_failure_falls_back
              (constant_backend (Rejected (JStr "Failed to fetch")) stored)
              (form_of "The labs were terrible") idle)
    as [Hclassify Hsubmit].
  split; [exact (Hclassify eq_refl) |].
  destruct (Hsubmit eq_refl) as [Hdone Hcalls].
  split; [exact Hdone |].
  apply (Hcalls alice). repeat split.
Defined.

(** ** Claims C5 to C10: submission *)

Section Submission.

Variable supabase : Supabase.

Lemma rejected_run (f : Form) (w : World) (title text : string) :
  snd (handleSubmit supabase f w) =
    {| isSubmitting := isSubmitting w; isAnalyzing := isAnalyzing w;
       events := events w
                 ++ [PreventDefault;
                     Toast title (Literal text) destructive] |} ->
  submit_events supabase f w =
    [PreventDefault; Toast title (Literal text) destructive].
Proof.
  intros Hrun. unfold submit_events. rewrite Hrun. apply run_events_app.
Qed.

Lemma submit_unresolved (f : Form) (w : World) :
  studentInfo f = None ->
  submit supabase f w = [Err MissingIdentity]
  /\ network_calls supabase f w = [].
Proof.
  intros Hs. unfold submit, network_calls.
  erewrite rejected_run
    by (rewrite handleSubmit_unresolved by exact Hs; reflexivity).
  split; reflexivity.
Qed.

Lemma submit_blank (f : Form) (info : StudentInfo.info) (w : World) :
  studentInfo f = Some info ->
  nonempty (subject f) && nonempty (category f)
    && nonempty (trim (feedbackText f)) = false ->
  submit supabase f w = [Err MissingFields]
  /\ network_calls supabase f w = [].
Proof.
  intros Hs Hg. unfold submit, network_calls.
  erewrite rejected_run
    by (erewrite handleSubmit_blank by eassumption; reflexivity).
  split; reflexivity.
Qed.

(** Where the value of [analyzeSentiment] comes from: it is one of the
    three labels, or the sentiment of a successful reply. *)
Lemma analyzeSentiment_origin (text : string) (w : World) :
  exists v,
    fst (analyzeSentiment supabase text w) = Normal v
    /\ (is_label v = true
        \/ exists data error,
             functions_invoke supabase (events w) "analyze-sentiment" text
               = Resolved data error
             /\ truthy error = false
             /\ get_property data "sentiment" = inl v).
Proof.
  rewrite analyzeSentiment_reply. cbv zeta.
  pose proof (keywordFallback_label text) as Hfb.
  destruct (functions_invoke supabase (events w) "analyze-sentiment" text)
    as [reason | data error].
  - eexists. split; [reflexivity | left; exact Hfb].
  - destruct (truthy error) eqn:He.
    + eexists. split; [reflexivity | left; exact Hfb].
    + destruct (get_property data "sentiment") as [sentiment | e] eqn:Hp.
      * destruct (truthy sentiment) eqn:Hs.
        -- exists sentiment. split; [reflexivity |].
           right. exists data, error. auto.
        -- eexists. split; [reflexivity | left; reflexivity].
      * eexists. split; [reflexivity | left; exact Hfb].
Qed.

End Submission.

(** C5: validation fails fast.  With no resolved student the run reports
    MissingIdentity; with a student and an empty subject, an empty
    category or a body that is empty once trimmed, it reports
    MissingFields; in both cases neither the remote classifier nor the
    record store is called. *)
Theorem validation_fails_fast (supabase : Supabase) (f : Form) (w : World) :
  (studentInfo f = None ->
   submit supabase f w = [Err MissingIdentity]
   /\ network_calls supabase f w = [])
  /\ (forall info,
        studentInfo f = Some info ->
        subject f = "" \/ category f = "" \/ trim (feedbackText f) = "" ->
        submit supabase f w = [Err MissingFields]
        /\ network_calls supabase f w = []).
Proof.
  split.
  - apply submit_unresolved.
  - intros info Hs Hblank. apply (submit_blank supabase f info w Hs).
    destruct Hblank as [-> | [-> | ->]]; simpl;
      rewrite ?andb_false_r; reflexivity.
Qed.

Lemma validation_fails_fast_witness :
  submit (constant_backend (says "Positive") stored)
    {| studentInfo := None; subject := "Physics"; category := "General";
       feedbackText := "good" |} idle = [Err MissingIdentity]
  /\ network_calls (constant_backend (says "Positive") stored)
       {| studentInfo := None; subject := "Physics"; category := "General";
          feedbackText := "good" |} idle = []
  /\ submit (constant_backend (says "Positive") stored) (form_of "   ") idle
       = [Err MissingFields]
  /\ network_calls (constant_backend (says "Positive") stored)
       (form_of "   ") idle = [].
Proof.
  destruct (validation_fails_fast (constant_backend (says "Positive") stored)
              {| studentInfo := None; subject := "Physics";
                 category := "General"; feedbackText := "good" |} idle)
    as [Hidentity _].
  destruct (validation_fails_fast (constant_backend (says "Positive") stored)
              (form_of "   ") idle) as [_ Hfields].
  destruct (Hidentity eq_refl) as [H1 H2].
  destruct (Hfields alice eq_refl (or_intror (or_intror eq_refl)))
    as [H3 H4].
  repeat split; assumption.
Defined.

(** C6, as stated, fails: the edge function answers with a sentiment
    that is an object with an entry named toString; the record is handed
    to the store, the insert succeeds, and the run still reports
    PersistenceFailed, because building the success message throws. *)
Lemma stored_record_reported_as_failure :
  failed stored = false
  /\ network_calls
       (constant_backend
          (Resolved (JObj [("sentiment", JObj [("toString", JNum 1)])]) JNull)
          stored)
       (form_of "Great lectures") idle =
       [FunctionsInvoke "analyze-sentiment" "Great lectures";
        Insert "feedback"
          (feedback_row alice (form_of "Great lectures")
             (JObj [("toString", JNum 1)]))]
  /\ submit
       (constant_backend
          (Resolved (JObj [("sentiment", JObj [("toString", JNum 1)])]) JNull)
          stored)
       (form_of "Great lectures") idle = [Err PersistenceFailed].
Proof. repeat split. Qed.

(** C6, amended: on an accepted form, when the insert succeeds, the
    record handed to the store holds the fields of the form, the branch
    and semester of the student and exactly the value [analyzeSentiment]
    returned for the body; the run reports Ok with that same value
    whenever the value can be converted to a string for the success
    message, as every string, number and boolean can. *)
Theorem stored_submission_reports_label (supabase : Supabase) (f : Form)
  (info : StudentInfo.info) (w : World) (v : JsValue) (w1 : World) :
  accepted f info ->
  analyzeSentiment supabase (feedbackText f) (classifying w) = (Normal v, w1) ->
  failed (from_insert supabase (events w1) "feedback" (feedback_row info f v))
    = false ->
  (printable v = true -> submit supabase f w = [Ok v])
  /\ exists row,
       network_calls supabase f w =
         [FunctionsInvoke "analyze-sentiment" (feedbackText f);
          Insert "feedback" row]
       /\ FeedbackRow.student_id row = StudentInfo.id info
       /\ FeedbackRow.subject row = subject f
       /\ FeedbackRow.category row = category f
       /\ FeedbackRow.feedback_text row = feedbackText f
       /\ FeedbackRow.sentiment row = v
       /\ FeedbackRow.branch row = StudentInfo.branch info
       /\ FeedbackRow.semester row = StudentInfo.semester info.
Proof.
  intros Hacc Hrun Hok. split.
  - intros Hprint.
    rewrite (submit_accepted supabase f info w v w1 Hacc Hrun), Hok, Hprint.
    reflexivity.
  - exists (feedback_row info f v). split.
    + exact (network_calls_accepted supabase f info w v w1 Hacc Hrun).
    + repeat split.
Qed.

Lemma stored_submission_reports_label_witness :
  submit (constant_backend (says "Negative") stored)
    (form_of "Great lectures") idle = [Ok (JStr "Negative")]
  /\ exists row,
       network_calls (constant_backend (says "Negative") stored)
         (form_of "Great lectures") idle =
         [FunctionsInvoke "analyze-sentiment" "Great lectures";
          Insert "feedback" row]
       /\ FeedbackRow.student_id row = "s-17"
       /\ FeedbackRow.subject row = "Algorithms"
       /\ FeedbackRow.category row = "Course Content"
       /\ FeedbackRow.feedback_text row = "Great lectures"
       /\ FeedbackRow.sentiment row = JStr "Negative"
       /\ FeedbackRow.branch row = "CSE"
       /\ FeedbackRow.semester row = 5%Z.
Proof.
  destruct (stored_submission_reports_label
              (constant_backend (says "Negative") stored)
              (form_of "Great lectures") alice idle (JStr "Negative")
              {| isSubmitting := true; isAnalyzing := false;
                 events := [PreventDefault;
                            FunctionsInvoke "analyze-sentiment"
                              "Great lectures"] |})
    as [Hok Hrow]; [repeat split | reflexivity | reflexivity |].
  split; [exact (Hok eq_refl) | exact Hrow].
Defined.

(** C7, as stated, fails in its first part: the record handed to the
    store can carry a sentiment that is none of the three labels. *)
Lemma record_carries_foreign_label :
  network_calls (constant_backend (says "Mixed") stored)
    (form_of "it was fine") idle =
    [FunctionsInvoke "analyze-sentiment" "it was fine";
     Insert "feedback"
       (feedback_row alice (form_of "it was fine") (JStr "Mixed"))]
  /\ FeedbackRow.sentiment
       (feedback_row alice (form_of "it was fine") (JStr "Mixed"))
     = JStr "Mixed"
  /\ is_label (JStr "Mixed") = false.
Proof. repeat split. Qed.

(** C7, amended: in every run of [handleSubmit] the calls that leave the
    component are either none, or one call of the remote classifier
    followed by one insert.  The insert is issued only after
    [analyzeSentiment] has returned, and the record it carries holds the
    value [analyzeSentiment] returned: never an empty one, and one of
    Positive, Neutral and Negative unless the remote classifier itself
    answered with another non-empty sentiment, which is attached as it
    is. *)
Theorem sentiment_precedes_persistence (supabase : Supabase) (f : Form)
  (w : World) :
  network_calls supabase f w = []
  \/ exists info v w1,
       analyzeSentiment supabase (feedbackText f) (classifying w)
         = (Normal v, w1)
       /\ isAnalyzing w1 = false
       /\ truthy v = true
       /\ (is_label v = true
           \/ exists data error,
                functions_invoke supabase (events (classifying w))
                  "analyze-sentiment" (feedbackText f) = Resolved data error
                /\ truthy error = false
                /\ get_property data "sentiment" = inl v)
       /\ FeedbackRow.sentiment (feedback_row info f v) = v
       /\ network_calls supabase f w =
            [FunctionsInvoke "analyze-sentiment" (feedbackText f);
             Insert "feedback" (feedback_row info f v)].
Proof.
  destruct (studentInfo f) as [info |] eqn:Hs.
  - destruct (nonempty (subject f) && nonempty (category f)
              && nonempty (trim (feedbackText f))) eqn:Hg.
    + right.
      apply andb_true_iff in Hg. destruct Hg as [Hg Hbody].
      apply andb_true_iff in Hg. destruct Hg as [Hsub Hcat].
      assert (Hacc : accepted f info) by (repeat split; assumption).
      destruct (analyzeSentiment_returns supabase (feedbackText f)
                  (classifying w)) as (v & log & Hrun & Hv & _).
      destruct (analyzeSentiment_origin supabase (feedbackText f)
                  (classifying w)) as (v' & Hv' & Horigin).
      rewrite Hrun in Hv'. injection Hv' as <-.
      exists info, v. eexists. split; [exact Hrun |].
      repeat split; [exact Hv | exact Horigin |].
      exact (network_calls_accepted supabase f info w v _ Hacc Hrun).
    + left. exact (proj2 (submit_blank supabase f info w Hs Hg)).
  - left. exact (proj2 (submit_unresolved supabase f w Hs)).
Qed.

(** C8: on an accepted form, when the insert does not succeed, whatever
    the rejection reason or the error of the reply, the run reports
    PersistenceFailed after a single insert attempt; the submit flag is
    cleared again, and a further run on the same form classifies and
    inserts anew. *)
Theorem store_failure_reported_once (supabase : Supabase) (f : Form)
  (info : StudentInfo.info) (w : World) (v : JsValue) (w1 : World) :
  accepted f info ->
  analyzeSentiment supabase (feedbackText f) (classifying w) = (Normal v, w1) ->
  failed (from_insert supabase (events w1) "feedback" (feedback_row info f v))
    = true ->
  submit supabase f w = [Err PersistenceFailed]
  /\ network_calls supabase f w =
       [FunctionsInvoke "analyze-sentiment" (feedbackText f);
        Insert "feedback" (feedback_row info f v)]
  /\ isSubmitting (snd (handleSubmit supabase f w)) = false
  /\ exists v',
       network_calls supabase f (snd (handleSubmit supabase f w)) =
         [FunctionsInvoke "analyze-sentiment" (feedbackText f);
          Insert "feedback" (feedback_row info f v')].
Proof.
  intros Hacc Hrun Hfail. split; [| split; [| split]].
  - rewrite (submit_accepted supabase f info w v w1 Hacc Hrun), Hfail.
    reflexivity.
  - exact (network_calls_accepted supabase f info w v w1 Hacc Hrun).
  - rewrite (handleSubmit_accepted supabase f info w v w1 Hacc Hrun).
    reflexivity.
  - destruct (analyzeSentiment_returns supabase (feedbackText f)
                (classifying (snd (handleSubmit supabase f w))))
      as (v' & log & Hrun' & _).
    exists v'.
    exact (network_calls_accepted supabase f info _ v' _ Hacc Hrun').
Qed.

Lemma store_failure_reported_once_witness :
  submit (constant_backend (says "Positive")
            (Resolved JNull (JObj [("code", JStr "23503")])))
    (form_of "Good course") idle = [Err PersistenceFailed]
  /\ network_calls (constant_backend (says "Positive")
                      (Resolved JNull (JObj [("code", JStr "23503")])))
       (form_of "Good course") idle =
       [FunctionsInvoke "analyze-sentiment" "Good course";
        Insert "feedback"
          (feedback_row alice (form_of "Good course") (JStr "Positive"))]
  /\ isSubmitting
       (snd (handleSubmit
               (constant_backend (says "Positive")
                  (Resolved JNull (JObj [("code", JStr "23503")])))
               (form_of "Good course") idle)) = false
  /\ exists v',
       network_calls (constant_backend (says "Positive")
                        (Resolved JNull (JObj [("code", JStr "23503")])))
         (form_of "Good course")
         (snd (handleSubmit
                 (constant_backend (says "Positive")
                    (Resolved JNull (JObj [("code", JStr "23503")])))
                 (form_of "Good course") idle)) =
         [FunctionsInvoke "analyze-sentiment" "Good course";
          Insert "feedback" (feedback_row alice (form_of "Good course") v')].
Proof.
  eapply (store_failure_reported_once
            (constant_backend (says "Positive")
               (Resolved JNull (JObj [("code", JStr "23503")])))
            (form_of "Good course") alice idle).
  - repeat split.
  - reflexivity.
  - reflexivity.
Defined.

(** C9: the length of the body plays no part in the outcome.  Every form
    that passes the guards, namely a resolved student, a subject, a
    category and a body that is not empty once trimmed, is classified
    and handed to the record store with its whole body, however long the
    body is; the run reports Ok or PersistenceFailed, never a validation
    error. *)
Theorem body_length_not_enforced (supabase : Supabase) (f : Form)
  (info : StudentInfo.info) (w : World) :
  accepted f info ->
  exists v,
    network_calls supabase f w =
      [FunctionsInvoke "analyze-sentiment" (feedbackText f);
       Insert "feedback" (feedback_row info f v)]
    /\ FeedbackRow.feedback_text (feedback_row info f v) = feedbackText f
    /\ (submit supabase f w = [Ok v]
        \/ submit supabase f w = [Err PersistenceFailed]).
Proof.
  intros Hacc.
  destruct (analyzeSentiment_returns supabase (feedbackText f) (classifying w))
    as (v & log & Hrun & _).
  exists v. split; [| split].
  - exact (network_calls_accepted supabase f info w v _ Hacc Hrun).
  - reflexivity.
  - rewrite (submit_accepted supabase f info w v _ Hacc Hrun).
    destruct (failed _ || negb (printable v)); [right | left]; reflexivity.
Qed.

Lemma body_length_not_enforced_witness :
  String.length (feedbackText (form_of (replicate 1200 "a"))) = 1200
  /\ exists v,
       network_calls (constant_backend (says "Neutral") stored)
         (form_of (replicate 1200 "a")) idle =
         [FunctionsInvoke "analyze-sentiment" (replicate 1200 "a");
          Insert "feedback"
            (feedback_row alice (form_of (replicate 1200 "a")) v)]
       /\ FeedbackRow.feedback_text
            (feedback_row alice (form_of (replicate 1200 "a")) v)
          = replicate 1200 "a"
       /\ (submit (constant_backend (says "Neutral") stored)
             (form_of (replicate 1200 "a")) idle = [Ok v]
           \/ submit (constant_backend (says "Neutral") stored)
                (form_of (replicate 1200 "a")) idle
              = [Err PersistenceFailed]).
Proof.
  split; [vm_compute; reflexivity |].
  apply (body_length_not_enforced (constant_backend (says "Neutral") stored)
           (form_of (replicate 1200 "a")) alice idle).
  repeat split.
Defined.

(** C10: trimming serves validation only.  On an accepted form the record
    handed to the store, and the text sent to the classifier, carry the
    body exactly as entered, surrounding white space included; a body
    made of white space only is rejected with MissingFields before any
    call. *)
Theorem body_stored_untrimmed (supabase : Supabase) (f : Form)
  (info : StudentInfo.info) (w : World) :
  studentInfo f = Some info ->
  (accepted f info ->
   (exists row, In (Insert "feedback" row) (submit_events supabase f w))
   /\ (forall table row,
         In (Insert table row) (submit_events supabase f w) ->
         FeedbackRow.feedback_text row = feedbackText f)
   /\ (forall name text,
         In (FunctionsInvoke name text) (submit_events supabase f w) ->
         text = feedbackText f))
  /\ (all_space (feedbackText f) = true ->
      submit supabase f w = [Err MissingFields]
      /\ network_calls supabase f w = []).
Proof.
  intros Hs. split.
  - intros Hacc.
    destruct (analyzeSentiment_returns supabase (feedbackText f)
                (classifying w)) as (v & log & Hrun & _).
    pose proof (network_calls_accepted supabase f info w v _ Hacc Hrun)
      as Hcalls.
    unfold network_calls in Hcalls.
    split; [| split].
    + exists (feedback_row info f v).
      apply (proj1 (filter_In is_call _ (submit_events supabase f w))).
      rewrite Hcalls. simpl. tauto.
    + intros table row Hin.
      assert (Hin' : In (Insert table row)
                       (filter is_call (submit_events supabase f w)))
        by (apply filter_In; split; [exact Hin | reflexivity]).
      rewrite Hcalls in Hin'. simpl in Hin'.
      destruct Hin' as [H | [H | []]]; [discriminate |].
      injection H as _ <-. reflexivity.
    + intros name text Hin.
      assert (Hin' : In (FunctionsInvoke name text)
                       (filter is_call (submit_events supabase f w)))
        by (apply filter_In; split; [exact Hin | reflexivity]).
      rewrite Hcalls in Hin'. simpl in Hin'.
      destruct Hin' as [H | [H | []]]; [| discriminate].
      injection H as _ <-. reflexivity.
  - intros Hws. apply (submit_blank supabase f info w Hs).
    apply trim_empty_iff in Hws. rewrite Hws, andb_false_r. reflexivity.
Qed.

Lemma body_stored_untrimmed_witness :
  trim "  good  " = "good"
  /\ ((exists row,
         In (Insert "feedback" row)
           (submit_events (constant_backend (says "Positive") stored)
              (form_of "  good  ") idle))
      /\ (forall table row,
            In (Insert table row)
              (submit_events (constant_backend (says "Positive") stored)
                 (form_of "  good  ") idle) ->
            FeedbackRow.feedback_text row = "  good  ")
      /\ (forall name text,
            In (FunctionsInvoke name text)
              (submit_events (constant_backend (says "Positive") stored)
                 (form_of "  good  ") idle) ->
            text = "  good  "))
  /\ submit (constant_backend (says "Positive") stored) (form_of "    ") idle
     = [Err MissingFields]
  /\ network_calls (constant_backend (says "Positive") stored)
       (form_of "    ") idle = [].
Proof.
  split; [reflexivity |]. split.
  - apply (body_stored_untrimmed (constant_backend (says "Positive") stored)
             (form_of "  good  ") alice idle eq_refl).
    repeat split.
  - apply (body_stored_untrimmed (constant_backend (says "Positive") stored)
             (form_of "    ") alice idle eq_refl).
    reflexivity.
Defined.

(** ** Further properties of the submission page *)

Section SubmissionPage.

Variable supabase : Supabase.

Lemma toLowerCase_append (a b : string) :
  toLowerCase (a ++ b) = toLowerCase a ++ toLowerCase b.
Proof.
  induction a as [|c a IH]; simpl; [reflexivity |].
  rewrite IH. reflexivity.
Qed.

Lemma append_assoc (a b c : string) : (a ++ b) ++ c = a ++ b ++ c.
Proof.
  induction a as [|x a IH]; simpl; [reflexivity |].
  rewrite IH. reflexivity.
Qed.

Lemma contains_extend (s k a b : string) :
  contains s k -> contains (a ++ s ++ b) k.
Proof.
  intros (pre & post & ->).
  exists (a ++ pre), (post ++ b).
  rewrite !append_assoc. reflexivity.
Qed.

Lemma analyzeSentiment_quiet (text : string) (w : World) :
  exists v log,
    analyzeSentiment supabase text w =
      (Normal v,
       {| isSubmitting := isSubmitting w; isAnalyzing := false;
          events := events w
                    ++ FunctionsInvoke "analyze-sentiment" text :: log |})
    /\ filter is_toast log = []
    /\ filter is_navigate log = [].
Proof.
  rewrite analyzeSentiment_reply. cbv zeta.
  destruct (functions_invoke supabase (events w) "analyze-sentiment" text)
    as [reason | data error].
  - eexists _, _. split; [reflexivity |]. split; reflexivity.
  - destruct (truthy error).
    + eexists _, _. split; [reflexivity |]. split; reflexivity.
    + destruct (get_property data "sentiment") as [sentiment | e];
        eexists _, _; (split; [reflexivity |]); split; reflexivity.
Qed.

(** The events of a run on an accepted form, around the part that
    [analyzeSentiment] logs. *)
Lemma submit_events_shape (f : Form) (info : StudentInfo.info) (w : World) :
  accepted f info ->
  exists v w1 log,
    analyzeSentiment supabase (feedbackText f) (classifying w) = (Normal v, w1)
    /\ isAnalyzing w1 = false
    /\ filter is_toast log = []
    /\ filter is_navigate log = []
    /\ submit_events supabase f w =
         PreventDefault
         :: FunctionsInvoke "analyze-sentiment" (feedbackText f)
         :: log
         ++ Insert "feedback" (feedback_row info f v)
            :: store_log (from_insert supabase (events w1) "feedback"
                            (feedback_row info f v)) v.
Proof.
  intros Hacc.
  destruct (analyzeSentiment_quiet (feedbackText f) (classifying w))
    as (v & log & Hrun & Htoast & Hnav).
  exists v. eexists. exists log.
  split; [exact Hrun |]. repeat split; auto.
  unfold submit_events.
  rewrite (handleSubmit_accepted supabase f info w v _ Hacc Hrun).
  cbn [snd events isAnalyzing classifying].
  rewrite <- !app_assoc. cbn [app].
  apply run_events_app.
Qed.

(** Either a guard of [handleSubmit] stops the run after one toast and
    leaves the state as it was, or the form is accepted. *)
Lemma handleSubmit_cases (f : Form) (w : World) :
  (exists info, accepted f info)
  \/ exists title text,
       handleSubmit supabase f w =
         (Normal tt,
          {| isSubmitting := isSubmitting w; isAnalyzing := isAnalyzing w;
             events := events w
                       ++ [PreventDefault;
                           Toast title (Literal text) destructive] |})
       /\ announced (Toast title (Literal text) destructive) <> None
       /\ forall v, announced (Toast title (Literal text) destructive)
                    <> Some (Ok v).
Proof.
  destruct (studentInfo f) as [info |] eqn:Hs.
  - destruct (nonempty (subject f) && nonempty (category f)
              && nonempty (trim (feedbackText f))) eqn:Hg.
    + left. exists info.
      apply andb_true_iff in Hg. destruct Hg as [Hg Hbody].
      apply andb_true_iff in Hg. destruct Hg as [Hsub Hcat].
      repeat split; assumption.
    + right. eexists _, _. split.
      * apply (handleSubmit_blank supabase f info w Hs Hg).
      * split; [discriminate | intros v; discriminate].
  - right. eexists _, _. split.
    + apply (handleSubmit_unresolved supabase f w Hs).
    + split; [discriminate | intros v; discriminate].
Qed.

End SubmissionPage.

(** X1: without a signed-in user, or when the students query resolves
    without a row, the effect leaves the form as it is; with no student
    loaded, a submission then reports MissingIdentity and calls neither
    the classifier nor the store. *)
Theorem no_student_no_submission
  (students : option string -> Fetched StudentInfo.info)
  (user : option User.user) (f : Form) (supabase : Supabase) (w : World) :
  user = None
  \/ (exists error,
        students (option_map User.id user) = FetchResolved None error) ->
  userEffect students user f = Normal f
  /\ (studentInfo f = None ->
      submit supabase f w = [Err MissingIdentity]
      /\ network_calls supabase f w = []).
Proof.
  intros Hnone. split.
  - destruct Hnone as [-> | [error Hreply]]; [reflexivity |].
    unfold userEffect, fetchStudentInfo.
    destruct user; [rewrite Hreply |]; reflexivity.
  - apply submit_unresolved.
Qed.

Lemma no_student_no_submission_witness :
  userEffect (fun _ => FetchResolved None JNull)
    (Some {| User.id := "u-1" |})
    {| studentInfo := None; subject := "Physics"; category := "General";
       feedbackText := "good" |}
  = Normal {| studentInfo := None; subject := "Physics";
              category := "General"; feedbackText := "good" |}
  /\ submit (constant_backend (says "Positive") stored)
       {| studentInfo := None; subject := "Physics"; category := "General";
          feedbackText := "good" |} idle = [Err MissingIdentity].
Proof.
  destruct (no_student_no_submission (fun _ => FetchResolved None JNull)
              (Some {| User.id := "u-1" |})
              {| studentInfo := None; subject := "Physics";
                 category := "General"; feedbackText := "good" |}
              (constant_backend (says "Positive") stored) idle
              (or_intror (ex_intro _ JNull eq_refl))) as [Heffect Hsubmit].
  split; [exact Heffect | exact (proj1 (Hsubmit eq_refl))].
Defined.

(** X2: when the students query resolves with a row, whatever its error
    slot holds, that row becomes the student of the form, and a
    submission with a subject, a category and a non-blank body hands the
    store a record with the id, branch and semester of that row. *)
Theorem fetched_student_reaches_row
  (students : option string -> Fetched StudentInfo.info)
  (u : User.user) (f : Form) (info : StudentInfo.info) (error : JsValue)
  (supabase : Supabase) (w : World) :
  students (Some (User.id u)) = FetchResolved (Some info) error ->
  nonempty (subject f) = true ->
  nonempty (category f) = true ->
  nonempty (trim (feedbackText f)) = true ->
  exists f' row,
    userEffect students (Some u) f = Normal f'
    /\ studentInfo f' = Some info
    /\ network_calls supabase f' w =
         [FunctionsInvoke "analyze-sentiment" (feedbackText f);
          Insert "feedback" row]
    /\ FeedbackRow.student_id row = StudentInfo.id info
    /\ FeedbackRow.branch row = StudentInfo.branch info
    /\ FeedbackRow.semester row = StudentInfo.semester info
    /\ FeedbackRow.subject row = subject f
    /\ FeedbackRow.category row = category f
    /\ FeedbackRow.feedback_text row = feedbackText f.
Proof.
  intros Hreply Hsub Hcat Hbody.
  set (f' := {| studentInfo := Some info; subject := subject f;
                category := category f; feedbackText := feedbackText f |}).
  assert (Hacc : accepted f' info) by (repeat split; assumption).
  destruct (analyzeSentiment_returns supabase (feedbackText f') (classifying w))
    as (v & log & Hrun & _).
  exists f', (feedback_row info f' v). split.
  - unfold userEffect, fetchStudentInfo. cbn [option_map].
    rewrite Hreply. reflexivity.
  - split; [reflexivity |]. split.
    + exact (network_calls_accepted supabase f' info w v _ Hacc Hrun).
    + repeat split.
Qed.

Lemma fetched_student_reaches_row_witness :
  exists f' row,
    userEffect (fun _ => FetchResolved (Some alice) JNull)
      (Some {| User.id := "u-1" |})
      {| studentInfo := None; subject := "Physics"; category := "General";
         feedbackText := "good" |} = Normal f'
    /\ studentInfo f' = Some alice
    /\ network_calls (constant_backend (says "Positive") stored) f' idle =
         [FunctionsInvoke "analyze-sentiment" "good"; Insert "feedback" row]
    /\ FeedbackRow.student_id row = "s-17"
    /\ FeedbackRow.branch row = "CSE"
    /\ FeedbackRow.semester row = 5%Z
    /\ FeedbackRow.subject row = "Physics"
    /\ FeedbackRow.category row = "General"
    /\ FeedbackRow.feedback_text row = "good".
Proof.
  apply (fetched_student_reaches_row
           (fun _ => FetchResolved (Some alice) JNull) {| User.id := "u-1" |}
           {| studentInfo := None; subject := "Physics";
              category := "General"; feedbackText := "good" |}
           alice JNull (constant_backend (says "Positive") stored) idle);
    reflexivity.
Defined.

(** X3: [handleSubmit] never leaves the submit button locked: a run that
    starts with the button enabled ends with it enabled, whatever the
    classifier and the store answer. *)
Theorem submit_button_released (supabase : Supabase) (f : Form) (w : World) :
  submitDisabled w = false ->
  submitDisabled (snd (handleSubmit supabase f w)) = false.
Proof.
  intros Hfree.
  destruct (handleSubmit_cases supabase f w)
    as [[info Hacc] | (title & text & -> & _)]; [| exact Hfree].
  destruct (submit_events_shape supabase f info w Hacc)
    as (v & w1 & log & Hrun & Hidle & _).
  rewrite (handleSubmit_accepted supabase f info w v w1 Hacc Hrun).
  unfold submitDisabled. cbn [snd isSubmitting isAnalyzing].
  rewrite Hidle. reflexivity.
Qed.

Lemma submit_button_released_witness :
  submitDisabled
    (snd (handleSubmit
            (constant_backend (Rejected JNull) (Rejected (JStr "offline")))
            (form_of "poor labs") idle)) = false.
Proof.
  apply (submit_button_released
           (constant_backend (Rejected JNull) (Rejected (JStr "offline")))
           (form_of "poor labs") idle).
  reflexivity.
Defined.

(** X4: every run of [handleSubmit] shows exactly one toast. *)
Theorem one_toast_per_run (supabase : Supabase) (f : Form) (w : World) :
  List.length (filter is_toast (submit_events supabase f w)) = 1.
Proof.
  destruct (handleSubmit_cases supabase f w)
    as [[info Hacc] | (title & text & Hrun & _)].
  - destruct (submit_events_shape supabase f info w Hacc)
      as (v & w1 & log & _ & _ & Htoast & _ & ->).
    cbn [filter is_toast]. rewrite filter_app, Htoast. cbn [filter is_toast app].
    unfold store_log. destruct (thrown _), (printable v); reflexivity.
  - unfold submit_events. rewrite Hrun. cbn [snd].
    rewrite run_events_app. reflexivity.
Qed.

(** X5: a run navigates away, to /student and once, exactly when it
    reports Ok; after a validation error or a failed insert the user stays
    on the form. *)
Theorem navigates_only_on_success (supabase : Supabase) (f : Form)
  (w : World) :
  filter is_navigate (submit_events supabase f w) =
    match submit supabase f w with
    | [Ok _] => [Navigate "/student"]
    | _ => []
    end.
Proof.
  destruct (handleSubmit_cases supabase f w)
    as [[info Hacc] | (title & text & Hrun & Hsome & Hnot)].
  - destruct (submit_events_shape supabase f info w Hacc)
      as (v & w1 & log & Hclassify & _ & _ & Hnav & Hev).
    rewrite (submit_accepted supabase f info w v w1 Hacc Hclassify).
    rewrite Hev. cbn [filter is_navigate].
    rewrite filter_app, Hnav. cbn [filter is_navigate app].
    unfold store_log, failed.
    destruct (thrown _), (printable v); reflexivity.
  - unfold submit, submit_events. rewrite Hrun. cbn [snd].
    rewrite run_events_app. cbn [filter is_navigate results].
    destruct (announced (Toast title (Literal text) destructive))
      as [[v | e] |]; try reflexivity.
    + exfalso. exact (Hnot v eq_refl).
Qed.

(** X6: surrounding text cannot take a Positive fallback result away: if
    the keyword classifier answers Positive for a text, it answers
    Positive for that text with anything written before and after it. *)
Theorem fallback_positive_is_stable (text before after : string) :
  keywordFallback text = "Positive" ->
  keywordFallback (before ++ text ++ after) = "Positive".
Proof.
  rewrite !keywordFallback_existsb.
  destruct (existsb (includes (toLowerCase text)) positive_keywords) eqn:Hp.
  - intros _.
    apply existsb_contains_any in Hp. destruct Hp as (k & Hin & Hk).
    assert (Hp' : existsb (includes (toLowerCase (before ++ text ++ after)))
                    positive_keywords = true).
    { apply existsb_contains_any. exists k. split; [exact Hin |].
      rewrite !toLowerCase_append. apply contains_extend. exact Hk. }
    rewrite Hp'. reflexivity.
  - destruct (existsb (includes (toLowerCase text)) negative_keywords);
      discriminate.
Qed.

Lemma fallback_positive_is_stable_witness :
  keywordFallback ("The worst exam, but " ++ "a helpful tutor" ++ ", sadly")
  = "Positive".
Proof.
  apply (fallback_positive_is_stable "a helpful tutor"). reflexivity.
Defined.

(** ** The charts of the faculty dashboard *)

Section Tally.

Variable key : FeedbackItem.item -> string.

Lemma existsb_eqb_In (x : string) (l : list string) :
  existsb (String.eqb x) l = true <-> In x l.
Proof.
  rewrite existsb_exists. split.
  - intros (y & Hin & Heq). apply String.eqb_eq in Heq. subst. exact Hin.
  - intros Hin. exists x. split; [exact Hin | apply String.eqb_refl].
Qed.

Lemma find_names (k : string) (acc : list Bar.bar) :
  match find (fun d => Bar.name d =? k) acc with
  | Some _ => existsb (String.eqb k) (map Bar.name acc) = true
  | None => existsb (String.eqb k) (map Bar.name acc) = false
  end.
Proof.
  induction acc as [|d acc IH]; simpl; [reflexivity |].
  rewrite (String.eqb_sym k (Bar.name d)).
  destruct (Bar.name d =? k); simpl; [reflexivity | exact IH].
Qed.

Lemma increment_names (k : string) (acc : list Bar.bar) :
  map Bar.name (FacultyDashboard.increment k acc) = map Bar.name acc.
Proof.
  induction acc as [|d acc IH]; simpl; [reflexivity |].
  destruct (Bar.name d =? k); simpl; [reflexivity |].
  rewrite IH. reflexivity.
Qed.

Lemma tally_names (acc : list Bar.bar) (item : FeedbackItem.item) :
  map Bar.name (FacultyDashboard.tally key acc item) =
    (map Bar.name acc
     ++ if existsb (String.eqb (key item)) (map Bar.name acc) then []
        else [key item])%list.
Proof.
  unfold FacultyDashboard.tally.
  pose proof (find_names (key item) acc) as Hfind.
  destruct (find (fun d => Bar.name d =? key item) acc).
  - rewrite Hfind, increment_names, app_nil_r. reflexivity.
  - rewrite Hfind, map_app. reflexivity.
Qed.

Lemma fold_names (l : list FeedbackItem.item) (acc : list Bar.bar) :
  map Bar.name (fold_left (FacultyDashboard.tally key) l acc) =
    (map Bar.name acc
     ++ first_occurrences (map Bar.name acc) (map key l))%list.
Proof.
  revert acc. induction l as [|item l IH]; intros acc; simpl.
  - rewrite app_nil_r. reflexivity.
  - rewrite IH, tally_names.
    destruct (existsb (String.eqb (key item)) (map Bar.name acc)).
    + rewrite app_nil_r. reflexivity.
    + rewrite <- app_assoc. reflexivity.
Qed.

Lemma first_occurrences_In (x : string) (l seen : list string) :
  In x (first_occurrences seen l) <-> In x l /\ ~ In x seen.
Proof.
  revert seen. induction l as [|y l IH]; intros seen; simpl.
  - tauto.
  - destruct (existsb (String.eqb y) seen) eqn:Hy.
    + apply existsb_eqb_In in Hy. rewrite IH.
      split; [tauto |]. intros [[-> | Hin] Hnot]; tauto.
    + assert (Hy' : ~ In y seen)
        by (rewrite <- existsb_eqb_In, Hy; discriminate).
      simpl. rewrite IH, in_app_iff. simpl.
      destruct (string_dec y x) as [-> | Hne]; tauto.
Qed.

Lemma first_occurrences_NoDup (l seen : list string) :
  NoDup (first_occurrences seen l).
Proof.
  revert seen. induction l as [|y l IH]; intros seen; simpl.
  - constructor.
  - destruct (existsb (String.eqb y) seen); [apply IH |].
    constructor; [| apply IH].
    rewrite first_occurrences_In, in_app_iff. simpl. tauto.
Qed.

Lemma increment_count (n k : string) (acc : list Bar.bar) :
  existsb (String.eqb k) (map Bar.name acc) = true ->
  count_of n (FacultyDashboard.increment k acc) =
    count_of n acc + (if k =? n then 1 else 0).
Proof.
  induction acc as [|d acc IH]; simpl; [discriminate |].
  rewrite (String.eqb_sym k (Bar.name d)).
  destruct (String.eqb_spec (Bar.name d) k) as [Hk | Hk]; simpl.
  - intros _. rewrite Hk.
    destruct (k =? n); lia.
  - intros Hin.
    destruct (String.eqb_spec (Bar.name d) n) as [Hn | Hn].
    + destruct (String.eqb_spec k n); [congruence | lia].
    + apply IH. exact Hin.
Qed.

Lemma push_count (n k : string) (acc : list Bar.bar) :
  existsb (String.eqb k) (map Bar.name acc) = false ->
  count_of n (acc ++ [{| Bar.name := k; Bar.count := 1 |}]) =
    count_of n acc + (if k =? n then 1 else 0).
Proof.
  induction acc as [|d acc IH]; simpl.
  - intros _. destruct (k =? n); reflexivity.
  - rewrite (String.eqb_sym k (Bar.name d)).
    destruct (String.eqb_spec (Bar.name d) k) as [Hk | Hk]; simpl;
      [discriminate |].
    intros Hin.
    destruct (String.eqb_spec (Bar.name d) n) as [Hn | Hn].
    + destruct (String.eqb_spec k n); [congruence | lia].
    + apply IH. exact Hin.
Qed.

Lemma tally_count (n : string) (acc : list Bar.bar)
  (item : FeedbackItem.item) :
  count_of n (FacultyDashboard.tally key acc item) =
    count_of n acc + (if key item =? n then 1 else 0).
Proof.
  unfold FacultyDashboard.tally.
  pose proof (find_names (key item) acc) as Hfind.
  destruct (find (fun d => Bar.name d =? key item) acc).
  - apply increment_count. exact Hfind.
  - apply push_count. exact Hfind.
Qed.

Lemma fold_count (n : string) (l : list FeedbackItem.item)
  (acc : list Bar.bar) :
  count_of n (fold_left (FacultyDashboard.tally key) l acc) =
    count_of n acc + occurrences n (map key l).
Proof.
  revert acc. induction l as [|item l IH]; intros acc; simpl.
  - unfold occurrences. simpl. lia.
  - rewrite IH, tally_count. unfold occurrences. simpl.
    rewrite (String.eqb_sym n (key item)).
    destruct (key item =? n); simpl; lia.
Qed.

Lemma count_of_entry (d : Bar.bar) (bars : list Bar.bar) :
  NoDup (map Bar.name bars) -> In d bars ->
  count_of (Bar.name d) bars = Bar.count d.
Proof.
  induction bars as [|b bars IH]; simpl; [tauto |].
  intros Hnd [-> | Hin].
  - rewrite String.eqb_refl. reflexivity.
  - inversion Hnd as [| ? ? Hnot Hnd']; subst.
    destruct (String.eqb_spec (Bar.name b) (Bar.name d)) as [Heq | _].
    + exfalso. apply Hnot. rewrite Heq. apply in_map. exact Hin.
    + apply IH; assumption.
Qed.

Lemma occurrences_positive (x : string) (l : list string) :
  In x l -> 1 <= occurrences x l.
Proof.
  unfold occurrences. induction l as [|y l IH]; simpl; [tauto |].
  intros [-> | Hin].
  - rewrite String.eqb_refl. simpl. lia.
  - destruct (x =? y); simpl; [lia | apply IH; exact Hin].
Qed.

Lemma increment_total (k : string) (acc : list Bar.bar) :
  existsb (String.eqb k) (map Bar.name acc) = true ->
  total (FacultyDashboard.increment k acc) = S (total acc).
Proof.
  unfold total.
  induction acc as [|d acc IH]; simpl; [discriminate |].
  rewrite (String.eqb_sym k (Bar.name d)).
  destruct (Bar.name d =? k); simpl; [reflexivity |].
  intros Hin. rewrite (IH Hin). lia.
Qed.

Lemma fold_total (l : list FeedbackItem.item) (acc : list Bar.bar) :
  total (fold_left (FacultyDashboard.tally key) l acc) =
    total acc + List.length l.
Proof.
  revert acc. induction l as [|item l IH]; intros acc; simpl; [lia |].
  rewrite IH. unfold FacultyDashboard.tally.
  pose proof (find_names (key item) acc) as Hfind.
  destruct (find (fun d => Bar.name d =? key item) acc).
  - rewrite (increment_total _ _ Hfind). lia.
  - unfold total. rewrite fold_right_app. simpl.
    clear. induction acc as [|d acc IH]; simpl; lia.
Qed.

(** The three facts about one tally, for any field. *)
Lemma tally_bars (l : list FeedbackItem.item) :
  let bars := fold_left (FacultyDashboard.tally key) l [] in
  map Bar.name bars = first_occurrences [] (map key l)
  /\ NoDup (map Bar.name bars)
  /\ (forall n, In n (map Bar.name bars) <-> In n (map key l))
  /\ (forall d, In d bars ->
        Bar.count d = occurrences (Bar.name d) (map key l)
        /\ 1 <= Bar.count d).
Proof.
  cbv zeta.
  pose proof (fold_names l []) as Hnames. simpl in Hnames.
  assert (Hnd : NoDup (map Bar.name
                         (fold_left (FacultyDashboard.tally key) l [])))
    by (rewrite Hnames; apply first_occurrences_NoDup).
  assert (Hin : forall n,
             In n (map Bar.name
                     (fold_left (FacultyDashboard.tally key) l []))
             <-> In n (map key l)).
  { intros n. rewrite Hnames, first_occurrences_In. simpl. tauto. }
  repeat split; try assumption; try (apply Hin; assumption).
  - rewrite <- (count_of_entry d _ Hnd H), fold_count. reflexivity.
  - rewrite <- (count_of_entry d _ Hnd H), fold_count. simpl.
    apply occurrences_positive, Hin, in_map. exact H.
Qed.

End Tally.

(** X7: the bars of the branch chart, and those of the category chart,
    carry pairwise distinct names, one for each branch (category) that
    occurs in the feedback and no other, in the order in which these
    first occur. *)
Theorem bars_follow_first_occurrence (feedback : list FeedbackItem.item) :
  (map Bar.name (FacultyDashboard.branchData feedback)
     = first_occurrences [] (map FeedbackItem.branch feedback)
   /\ NoDup (map Bar.name (FacultyDashboard.branchData feedback))
   /\ forall n, In n (map Bar.name (FacultyDashboard.branchData feedback))
                <-> In n (map FeedbackItem.branch feedback))
  /\ (map Bar.name (FacultyDashboard.categoryData feedback)
        = first_occurrences [] (map FeedbackItem.category feedback)
      /\ NoDup (map Bar.name (FacultyDashboard.categoryData feedback))
      /\ forall n, In n (map Bar.name (FacultyDashboard.categoryData feedback))
                   <-> In n (map FeedbackItem.category feedback)).
Proof.
  destruct (tally_bars FeedbackItem.branch feedback) as (Hb1 & Hb2 & Hb3 & _).
  destruct (tally_bars FeedbackItem.category feedback)
    as (Hc1 & Hc2 & Hc3 & _).
  split; (split; [| split]); assumption.
Qed.

(** X8: every bar of the branch chart, and of the category chart, counts
    exactly the feedback items of its branch (category), and no bar has
    a count of zero. *)
Theorem bar_counts_items (feedback : list FeedbackItem.item) (d : Bar.bar) :
  (In d (FacultyDashboard.branchData feedback) ->
   Bar.count d
     = occurrences (Bar.name d) (map FeedbackItem.branch feedback)
   /\ 1 <= Bar.count d)
  /\ (In d (FacultyDashboard.categoryData feedback) ->
      Bar.count d
        = occurrences (Bar.name d) (map FeedbackItem.category feedback)
      /\ 1 <= Bar.count d).
Proof.
  split; intros Hin.
  - exact (proj2 (proj2 (proj2 (tally_bars FeedbackItem.branch feedback)))
             d Hin).
  - exact (proj2 (proj2 (proj2 (tally_bars FeedbackItem.category feedback)))
             d Hin).
Qed.

Lemma bar_counts_items_witness :
  Bar.count {| Bar.name := "CSE"; Bar.count := 2 |}
    = occurrences "CSE"
        (map FeedbackItem.branch
           [sample_item "Positive" "CSE"; sample_item "Neutral" "IT";
            sample_item "Negative" "CSE"])
  /\ 1 <= Bar.count {| Bar.name := "CSE"; Bar.count := 2 |}.
Proof.
  apply (proj1 (bar_counts_items
                  [sample_item "Positive" "CSE"; sample_item "Neutral" "IT";
                   sample_item "Negative" "CSE"]
                  {| Bar.name := "CSE"; Bar.count := 2 |})).
  simpl. left. reflexivity.
Defined.

(** X9: the counts of the branch chart add up to the number of feedback
    items, and so do those of the category chart: every item is counted
    once in each. *)
Theorem bars_count_every_item (feedback : list FeedbackItem.item) :
  total (FacultyDashboard.branchData feedback) = List.length feedback
  /\ total (FacultyDashboard.categoryData feedback) = List.length feedback.
Proof.
  split.
  - exact (fold_total FeedbackItem.branch feedback []).
  - exact (fold_total FeedbackItem.category feedback []).
Qed.

Section Sentiments.

Lemma sentiment_cases (s : string) :
  (s =? "Positive") = true /\ (s =? "Neutral") = false
    /\ (s =? "Negative") = false
  \/ (s =? "Positive") = false /\ (s =? "Neutral") = true
     /\ (s =? "Negative") = false
  \/ (s =? "Positive") = false /\ (s =? "Neutral") = false
     /\ (s =? "Negative") = true
  \/ (s =? "Positive") = false /\ (s =? "Neutral") = false
     /\ (s =? "Negative") = false.
Proof.
  destruct (String.eqb_spec s "Positive") as [-> | _]; [left; auto |].
  destruct (String.eqb_spec s "Neutral") as [-> | _]; [right; left; auto |].
  destruct (String.eqb_spec s "Negative") as [-> | _]; auto 6.
Qed.

Lemma slices_and_strangers (feedback : list FeedbackItem.item) :
  FacultyDashboard.countSentiment "Positive" feedback
  + FacultyDashboard.countSentiment "Neutral" feedback
  + FacultyDashboard.countSentiment "Negative" feedback
  + List.length (filter (fun f => negb (recognized f)) feedback)
  = List.length feedback.
Proof.
  unfold FacultyDashboard.countSentiment, recognized.
  induction feedback as [|f feedback IH]; simpl; [reflexivity |].
  destruct (sentiment_cases (FeedbackItem.sentiment f))
    as [(-> & -> & ->) | [(-> & -> & ->) | [(-> & -> & ->) | (-> & -> & ->)]]];
    simpl; lia.
Qed.

Lemma strangers_none (feedback : list FeedbackItem.item) :
  List.length (filter (fun f => negb (recognized f)) feedback) = 0
  <-> forallb recognized feedback = true.
Proof.
  induction feedback as [|f feedback IH]; simpl; [tauto |].
  destruct (recognized f); simpl; [exact IH |].
  split; [lia | discriminate].
Qed.

End Sentiments.

(** X10: the three slices of the pie chart count each feedback item at
    most once, and leave out exactly the items whose sentiment is not
    literally Positive, Neutral or Negative; the slices add up to the
    number of items if and only if there is no such item. *)
Theorem slices_leave_out_other_labels (feedback : list FeedbackItem.item) :
  list_sum (map Slice.value (FacultyDashboard.sentimentData feedback))
  + List.length (filter (fun f => negb (recognized f)) feedback)
  = List.length feedback
  /\ (list_sum (map Slice.value (FacultyDashboard.sentimentData feedback))
      = List.length feedback
      <-> forallb recognized feedback = true).
Proof.
  pose proof (slices_and_strangers feedback) as Hsum.
  assert (Hlist :
            list_sum (map Slice.value (FacultyDashboard.sentimentData feedback))
            = FacultyDashboard.countSentiment "Positive" feedback
              + FacultyDashboard.countSentiment "Neutral" feedback
              + FacultyDashboard.countSentiment "Negative" feedback)
    by (simpl; lia).
  split; [lia |].
  rewrite <- strangers_none. lia.
Qed.


(** ** Routing *)

Section Routing.

Lemma element_at_In (routes : list (string * App.Element)) (path : string)
  (e : App.Element) :
  App.element_at routes path = Some e -> In e (map snd routes).
Proof.
  unfold App.element_at. cbv zeta.
  match goal with
  | |- context [find ?own routes] =>
      destruct (find own routes) as [r |] eqn:Hfind
  end.
  - intros [= <-]. apply find_some in Hfind. apply in_map, Hfind.
  - match goal with
    | |- context [find ?star routes] =>
        destruct (find star routes) as [r |] eqn:Hstar; [| discriminate]
    end.
    intros [= <-]. apply find_some in Hstar. apply in_map, Hstar.
Qed.

(** What a guarded route shows to a signed-in user with a role. *)
Lemma ProtectedRoute_role (auth : App.AuthContext) (u : User.user)
  (r : string) (allowed : string) (page : App.Page) :
  App.loading auth = false -> App.user auth = Some u ->
  App.role auth = Some r -> nonempty r = true ->
  App.ProtectedRoute auth [allowed] page =
    if r =? allowed then App.Render page else App.Navigate "/auth" true.
Proof.
  intros Hl Hu Hr Hne. unfold App.ProtectedRoute.
  rewrite Hl, Hu, Hr, Hne. simpl.
  destruct (r =? allowed); reflexivity.
Qed.

End Routing.

(** X12: a visitor who is not signed in never reaches a dashboard page,
    from whatever location and after any number of redirects: the routes
    show only the sign-in page, the not-found page or a redirect to
    /auth. *)
Theorem signed_out_reaches_no_dashboard (auth : App.AuthContext)
  (hops : nat) (path : string) (page : App.Page) :
  App.user auth = None ->
  App.settle hops auth path = Some page ->
  App.is_dashboard page = false.
Proof.
  intros Hu. revert path.
  induction hops as [|hops IH]; intros path; simpl; [discriminate |].
  unfold App.AppRoutes.
  destruct (App.loading auth) eqn:Hl; [discriminate |].
  match goal with
  | |- context [App.element_at ?routes path] =>
      destruct (App.element_at routes path) as [e |] eqn:He;
      [apply element_at_In in He | discriminate]
  end.
  unfold App.ProtectedRoute in He. rewrite Hl, Hu in He. simpl in He.
  repeat (destruct He as [<- | He]; [first [apply IH | now intros [= <-]] |]).
  destruct He.
Qed.

Lemma signed_out_reaches_no_dashboard_witness :
  App.settle 2 {| App.user := None; App.role := None; App.loading := false |}
    "/Admin/Students/" = Some App.Auth
  /\ App.is_dashboard App.Auth = false.
Proof.
  split; [reflexivity |].
  apply (signed_out_reaches_no_dashboard
           {| App.user := None; App.role := None; App.loading := false |}
           2 "/Admin/Students/" App.Auth); reflexivity.
Defined.

(** X13: a signed-in user with a role only ever reaches the dashboard
    pages meant for that role: the admin pages for admin, the faculty
    dashboard for faculty, the student pages for student. *)
Theorem role_reaches_own_pages_only (auth : App.AuthContext) (u : User.user)
  (r : string) (hops : nat) (path : string) (page : App.Page) :
  App.user auth = Some u ->
  App.role auth = Some r ->
  nonempty r = true ->
  App.settle hops auth path = Some page ->
  App.is_dashboard page = true ->
  App.audience page = Some r.
Proof.
  intros Hu Hr Hne. revert path.
  induction hops as [|hops IH]; intros path; simpl; [discriminate |].
  unfold App.AppRoutes.
  destruct (App.loading auth) eqn:Hl; [discriminate |].
  match goal with
  | |- context [App.element_at ?routes path] =>
      destruct (App.element_at routes path) as [e |] eqn:He;
      [apply element_at_In in He | discriminate]
  end.
  rewrite !(ProtectedRoute_role auth u r _ _ Hl Hu Hr Hne), Hu in He.
  simpl in He.
  repeat (destruct He as [<- | He];
          [first [ apply IH
                 | now intros [= <-]
                 | match goal with
                   | |- context [r =? ?a] =>
                       destruct (String.eqb_spec r a) as [-> | _];
                       [now intros [= <-] | apply IH]
                   end ] |]).
  destruct He.
Qed.

Lemma role_reaches_own_pages_only_witness :
  App.settle 3 (App.signed_in (Some "faculty")) "/ADMIN//"
    = Some App.FacultyDashboard
  /\ App.audience App.FacultyDashboard = Some "faculty".
Proof.
  split; [reflexivity |].
  apply (role_reaches_own_pages_only (App.signed_in (Some "faculty"))
           {| User.id := "u-1" |} "faculty" 3 "/ADMIN//"
           App.FacultyDashboard);
    reflexivity.
Defined.

(** X14: the guard lets a signed-in user without a role through: while
    the role is [null] or empty, every dashboard page, the admin pages
    included, is shown at its location. *)
Theorem missing_role_passes_every_guard (auth : App.AuthContext)
  (u : User.user) (page : App.Page) :
  App.loading auth = false ->
  App.user auth = Some u ->
  App.role auth = None \/ App.role auth = Some "" ->
  App.is_dashboard page = true ->
  exists path, App.settle 1 auth path = Some page.
Proof.
  intros Hl Hu Hr Hd.
  assert (Hguard : forall allowed children,
             App.ProtectedRoute auth allowed children = App.Render children).
  { intros allowed children. unfold App.ProtectedRoute. rewrite Hl, Hu.
    destruct Hr as [-> | ->]; reflexivity. }
  destruct page; try discriminate; simpl; unfold App.AppRoutes;
    rewrite Hl, !Hguard;
    [ exists "/admin" | exists "/admin/feedback" | exists "/admin/students"
    | exists "/faculty" | exists "/student" | exists "/student/feedback" ];
    reflexivity.
Qed.

Lemma missing_role_passes_every_guard_witness :
  exists path, App.settle 1 (App.signed_in None) path = Some App.AdminStudents.
Proof.
  apply (missing_role_passes_every_guard (App.signed_in None)
           {| User.id := "u-1" |} App.AdminStudents);
    [reflexivity | reflexivity | left; reflexivity | reflexivity].
Defined.

(** X15: from /auth, and from /, a signed-in user is taken to the
    dashboard of the role: admin, faculty or student; a user whose role
    is still [null] is taken to the student dashboard. *)
Theorem sign_in_lands_on_dashboard (auth : App.AuthContext) (u : User.user) :
  App.loading auth = false ->
  App.user auth = Some u ->
  (App.role auth = Some "admin" ->
   App.settle 2 auth "/auth" = Some App.AdminDashboard
   /\ App.settle 3 auth "/" = Some App.AdminDashboard)
  /\ (App.role auth = Some "faculty" ->
      App.settle 2 auth "/auth" = Some App.FacultyDashboard
      /\ App.settle 3 auth "/" = Some App.FacultyDashboard)
  /\ (App.role auth = Some "student" ->
      App.settle 2 auth "/auth" = Some App.StudentDashboard
      /\ App.settle 3 auth "/" = Some App.StudentDashboard)
  /\ (App.role auth = None ->
      App.settle 2 auth "/auth" = Some App.StudentDashboard
      /\ App.settle 3 auth "/" = Some App.StudentDashboard).
Proof.
  intros Hl Hu.
  split; [| split; [| split]]; intros Hr; simpl;
    unfold App.AppRoutes, App.ProtectedRoute;
    rewrite Hl, Hu, Hr; split; reflexivity.
Qed.

Lemma sign_in_lands_on_dashboard_witness :
  App.settle 2 (App.signed_in (Some "admin")) "/auth"
    = Some App.AdminDashboard
  /\ App.settle 3 (App.signed_in (Some "admin")) "/"
     = Some App.AdminDashboard.
Proof.
  apply (sign_in_lands_on_dashboard (App.signed_in (Some "admin"))
           {| User.id := "u-1" |}); reflexivity.
Defined.

(** X16: a signed-in user whose role is a non-empty string other than
    admin, faculty and student never comes to rest: /auth redirects to
    /student, whose guard redirects back to /auth, however many redirects
    are followed, and / leads into the same cycle. *)
Theorem unknown_role_never_settles (auth : App.AuthContext) (u : User.user)
  (r : string) (hops : nat) :
  App.loading auth = false ->
  App.user auth = Some u ->
  App.role auth = Some r ->
  nonempty r = true ->
  r <> "admin" -> r <> "faculty" -> r <> "student" ->
  App.settle hops auth "/auth" = None
  /\ App.settle hops auth "/student" = None
  /\ App.settle hops auth "/" = None.
Proof.
  intros Hl Hu Hr Hne Ha Hf Hs.
  apply String.eqb_neq in Ha, Hf, Hs.
  assert (Hauth : forall n,
             App.settle (S n) auth "/auth" = App.settle n auth "/student").
  { intros n. simpl. unfold App.AppRoutes. rewrite Hl, Hu, Hr. simpl.
    rewrite Ha, Hf. reflexivity. }
  assert (Hstudent : forall n,
             App.settle (S n) auth "/student" = App.settle n auth "/auth").
  { intros n. simpl. unfold App.AppRoutes.
    rewrite !(ProtectedRoute_role auth u r _ _ Hl Hu Hr Hne), Hl, Hs.
    reflexivity. }
  assert (Hroot : forall n,
             App.settle (S n) auth "/" = App.settle n auth "/auth").
  { intros n. simpl. unfold App.AppRoutes. rewrite Hl. reflexivity. }
  assert (Hall : forall n, App.settle n auth "/auth" = None
                           /\ App.settle n auth "/student" = None).
  { induction n as [|n [IH1 IH2]]; [split; reflexivity |].
    rewrite Hauth, Hstudent. split; assumption. }
  split; [apply Hall | split; [apply Hall |]].
  destruct hops as [|n]; [reflexivity |].
  rewrite Hroot. apply Hall.
Qed.

Lemma unknown_role_never_settles_witness :
  App.settle 40 (App.signed_in (Some "guest")) "/auth" = None
  /\ App.settle 40 (App.signed_in (Some "guest")) "/student" = None
  /\ App.settle 40 (App.signed_in (Some "guest")) "/" = None.
Proof.
  apply (unknown_role_never_settles (App.signed_in (Some "guest"))
           {| User.id := "u-1" |} "guest" 40);
    first [reflexivity | discriminate].
Defined.

(** ** The sign-in page *)

Section SignIn.

Variable is_email : string -> bool.
Variable auth : Auth.Service.

Lemma added_app (st : Auth.State) (b : bool) (es : list Auth.Event) :
  Auth.added st {| Auth.isLoading := b; Auth.log := Auth.log st ++ es |} = es.
Proof.
  unfold Auth.added. cbn [Auth.log].
  rewrite skipn_app, skipn_all, Nat.sub_diag. reflexivity.
Qed.

Lemma truthy_has_properties (v : JsValue) (name : string) :
  truthy v = true -> exists m, get_property v name = inl m.
Proof.
  destruct v; simpl; try discriminate; eauto.
Qed.

(** The run of [handleLogin], by the outcome of the schema and of
    [signIn]. *)
Lemma handleLogin_run (f : Auth.Fields) (st : Auth.State) :
  let email := Auth.loginEmail f in
  let password := Auth.loginPassword f in
  let ends log := {| Auth.isLoading := false; Auth.log := Auth.log st ++ log |} in
  Auth.handleLogin is_email auth f st =
    match Auth.loginSchema is_email email password with
    | issue :: _ =>
        (Normal tt,
         ends [Auth.PreventDefault;
               Auth.Toast "Validation Error" (Auth.IssueMessage issue)
                 destructive])
    | [] =>
        match Auth.signIn auth (Auth.log st ++ [Auth.PreventDefault])
                email password with
        | Auth.Rejects reason =>
            (Throw reason,
             ends [Auth.PreventDefault; Auth.SignIn email password])
        | Auth.Resolves error =>
            if truthy error then
              match get_property error "message" with
              | inl m =>
                  (Normal tt,
                   ends [Auth.PreventDefault; Auth.SignIn email password;
                         Auth.Toast "Login Failed" (Auth.MessageOf m)
                           destructive])
              | inr e =>
                  (Throw e,
                   ends [Auth.PreventDefault; Auth.SignIn email password])
              end
            else
              (Normal tt,
               ends [Auth.PreventDefault; Auth.SignIn email password])
        end
    end.
Proof.
  cbv zeta.
  unfold Auth.handleLogin, Auth.try_finally, Auth.bind at 1 2.
  unfold Auth.emit at 1, Auth.setIsLoading at 1.
  cbn [Auth.log Auth.isLoading].
  destruct (Auth.loginSchema is_email (Auth.loginEmail f)
              (Auth.loginPassword f)) as [|issue rest].
  - unfold Auth.bind, Auth.callSignIn, Auth.bind, Auth.emit, Auth.await.
    cbn [Auth.log Auth.isLoading].
    destruct (Auth.signIn auth (Auth.log st ++ [Auth.PreventDefault])
                (Auth.loginEmail f) (Auth.loginPassword f))
      as [reason | error]; cbn.
    + rewrite <- app_assoc. reflexivity.
    + destruct (truthy error); cbn.
      * unfold Auth.message.
        destruct (get_property error "message"); cbn;
          rewrite <- !app_assoc; reflexivity.
      * rewrite <- app_assoc. reflexivity.
  - cbn. rewrite <- app_assoc. reflexivity.
Qed.

Lemma loginSchema_valid (email password : string) :
  Auth.loginSchema is_email email password = []
  <-> is_email email && (6 <=? String.length password)%nat = true.
Proof.
  unfold Auth.loginSchema.
  destruct (is_email email), (6 <=? String.length password)%nat; simpl;
    split; congruence.
Qed.

End SignIn.

(** X17: [handleLogin] calls [signIn] only with credentials that pass the
    schema, an e-mail the library accepts and a password of at least six
    code units, and then exactly once, with the e-mail and password as
    entered; otherwise [signIn] is not called at all. *)
Theorem login_calls_signIn_only_when_valid (is_email : string -> bool)
  (auth : Auth.Service) (f : Auth.Fields) (st : Auth.State) :
  filter Auth.is_call (Auth.login_events is_email auth f st) =
    if is_email (Auth.loginEmail f)
       && (6 <=? String.length (Auth.loginPassword f))%nat
    then [Auth.SignIn (Auth.loginEmail f) (Auth.loginPassword f)]
    else [].
Proof.
  unfold Auth.login_events. rewrite handleLogin_run. cbv zeta.
  pose proof (loginSchema_valid is_email (Auth.loginEmail f)
                (Auth.loginPassword f)) as Hvalid.
  destruct (Auth.loginSchema is_email (Auth.loginEmail f)
              (Auth.loginPassword f)) as [|issue rest].
  - rewrite (proj1 Hvalid eq_refl).
    destruct (Auth.signIn _ _ _ _) as [reason | error].
    + cbn [snd]. rewrite added_app. reflexivity.
    + destruct (truthy error);
        [destruct (get_property error "message") |];
        cbn [snd]; rewrite added_app; reflexivity.
  - cbn [snd]. rewrite added_app.
    destruct (is_email (Auth.loginEmail f)
              && (6 <=? String.length (Auth.loginPassword f))%nat);
      [| reflexivity].
    destruct Hvalid as [_ Hvalid]. discriminate (Hvalid eq_refl).
Qed.

(** X18: when the credentials fail the schema, [handleLogin] completes
    normally with a single toast, Validation Error; its message is the
    one for the e-mail whenever the e-mail is not accepted, also when the
    password is too short as well, and the one for the password
    otherwise. *)
Theorem login_reports_first_issue (is_email : string -> bool)
  (auth : Auth.Service) (f : Auth.Fields) (st : Auth.State) :
  is_email (Auth.loginEmail f)
    && (6 <=? String.length (Auth.loginPassword f))%nat = false ->
  fst (Auth.handleLogin is_email auth f st) = Normal tt
  /\ Auth.login_events is_email auth f st =
       [Auth.PreventDefault;
        Auth.Toast "Validation Error"
          (Auth.IssueMessage
             (Auth.Custom
                (if is_email (Auth.loginEmail f)
                 then "Password must be at least 6 characters"
                 else "Invalid email address")))
          destructive].
Proof.
  intros Hbad. unfold Auth.login_events. rewrite handleLogin_run. cbv zeta.
  unfold Auth.loginSchema.
  destruct (is_email (Auth.loginEmail f));
    destruct (6 <=? String.length (Auth.loginPassword f))%nat;
    try discriminate; cbn; rewrite added_app; split; reflexivity.
Qed.

Lemma login_reports_first_issue_witness :
  fst (Auth.handleLogin Auth.has_at (Auth.always (Auth.Resolves JNull))
         {| Auth.loginEmail := "ann"; Auth.loginPassword := "abc";
            Auth.signupEmail := ""; Auth.signupPassword := "";
            Auth.fullName := ""; Auth.role := Auth.student;
            Auth.rollNumber := ""; Auth.branch := ""; Auth.semester := "1" |}
         Auth.start) = Normal tt
  /\ Auth.login_events Auth.has_at (Auth.always (Auth.Resolves JNull))
       {| Auth.loginEmail := "ann"; Auth.loginPassword := "abc";
          Auth.signupEmail := ""; Auth.signupPassword := "";
          Auth.fullName := ""; Auth.role := Auth.student;
          Auth.rollNumber := ""; Auth.branch := ""; Auth.semester := "1" |}
       Auth.start =
       [Auth.PreventDefault;
        Auth.Toast "Validation Error"
          (Auth.IssueMessage (Auth.Custom "Invalid email address"))
          destructive].
Proof.
  apply (login_reports_first_issue Auth.has_at
           (Auth.always (Auth.Resolves JNull))
           {| Auth.loginEmail := "ann"; Auth.loginPassword := "abc";
              Auth.signupEmail := ""; Auth.signupPassword := "";
              Auth.fullName := ""; Auth.role := Auth.student;
              Auth.rollNumber := ""; Auth.branch := "";
              Auth.semester := "1" |} Auth.start).
  reflexivity.
Defined.

(** X19: [handleLogin] clears the loading flag on every path.  It has no
    [catch]: when [signIn] rejects, the rejection escapes the handler
    after the flag is cleared and no toast is shown; in every other case
    the handler completes normally. *)
Theorem login_rejection_escapes (is_email : string -> bool)
  (auth : Auth.Service) (f : Auth.Fields) (st : Auth.State) :
  Auth.isLoading (snd (Auth.handleLogin is_email auth f st)) = false
  /\ (forall reason,
        fst (Auth.handleLogin is_email auth f st) = Throw reason
        <-> Auth.loginSchema is_email (Auth.loginEmail f)
              (Auth.loginPassword f) = []
            /\ Auth.signIn auth (Auth.log st ++ [Auth.PreventDefault])
                 (Auth.loginEmail f) (Auth.loginPassword f)
               = Auth.Rejects reason)
  /\ (fst (Auth.handleLogin is_email auth f st) <> Normal tt ->
      filter Auth.is_toast (Auth.login_events is_email auth f st) = []).
Proof.
  unfold Auth.login_events. rewrite handleLogin_run. cbv zeta.
  destruct (Auth.loginSchema is_email (Auth.loginEmail f)
              (Auth.loginPassword f)) as [|issue rest].
  - destruct (Auth.signIn _ _ _ _) as [reason | error].
    + cbn. split; [reflexivity |]. split.
      * intros r. split; [intros [= ->]; auto | intros [_ [= ->]]; auto].
      * intros _. rewrite added_app. reflexivity.
    + destruct (truthy error) eqn:Herr.
      * destruct (truthy_has_properties error "message" Herr) as [m ->].
        cbn. split; [reflexivity |]. split.
        -- intros r. split; [discriminate | intros [_ H]; discriminate].
        -- intros H. contradiction H; reflexivity.
      * cbn. split; [reflexivity |]. split.
        -- intros r. split; [discriminate | intros [_ H]; discriminate].
        -- intros H. contradiction H; reflexivity.
  - cbn. split; [reflexivity |]. split.
    + intros r. split; [discriminate | intros [H _]; discriminate].
    + intros H. contradiction H; reflexivity.
Qed.

Lemma login_rejection_escapes_witness :
  fst (Auth.handleLogin Auth.has_at
         (Auth.always (Auth.Rejects (JStr "Failed to fetch")))
         Auth.sample Auth.start) = Throw (JStr "Failed to fetch")
  /\ Auth.isLoading
       (snd (Auth.handleLogin Auth.has_at
               (Auth.always (Auth.Rejects (JStr "Failed to fetch")))
               Auth.sample Auth.start)) = false
  /\ filter Auth.is_toast
       (Auth.login_events Auth.has_at
          (Auth.always (Auth.Rejects (JStr "Failed to fetch")))
          Auth.sample Auth.start) = [].
Proof.
  destruct (login_rejection_escapes Auth.has_at
              (Auth.always (Auth.Rejects (JStr "Failed to fetch")))
              Auth.sample Auth.start) as (Hflag & Hthrow & Hquiet).
  split; [apply Hthrow; split; reflexivity |].
  split; [exact Hflag |].
  apply Hquiet. discriminate.
Defined.

Section SignUp.

Variable is_email : string -> bool.
Variable auth : Auth.Service.

(** The run of [handleSignup], by the outcome of the schema, of the
    check of the student details and of [signUp]. *)
Lemma handleSignup_run (f : Auth.Fields) (st : Auth.State) :
  let call :=
    Auth.SignUp (Auth.signupEmail f) (Auth.signupPassword f)
      (Auth.fullName f) (Auth.role f) (Auth.studentData_of f) in
  let ends log := {| Auth.isLoading := false; Auth.log := Auth.log st ++ log |} in
  Auth.handleSignup is_email auth f st =
    match Auth.signupSchema is_email (Auth.signupEmail f)
            (Auth.signupPassword f) (Auth.fullName f)
            (if Auth.is_student (Auth.role f)
             then Some (ParseInt.parseInt (Auth.semester f)) else None) with
    | issue :: _ =>
        (Normal tt,
         ends [Auth.PreventDefault;
               Auth.Toast "Validation Error" (Auth.IssueMessage issue)
                 destructive])
    | [] =>
        if Auth.is_student (Auth.role f)
           && (negb (nonempty (Auth.rollNumber f))
               || negb (nonempty (Auth.branch f)))
        then
          (Normal tt,
           ends [Auth.PreventDefault;
                 Auth.Toast "Missing Information"
                   (Auth.Text "Please fill in all student details")
                   destructive])
        else
          match Auth.signUp auth (Auth.log st ++ [Auth.PreventDefault])
                  (Auth.signupEmail f) (Auth.signupPassword f)
                  (Auth.fullName f) (Auth.role f) (Auth.studentData_of f) with
          | Auth.Rejects reason =>
              (Throw reason, ends [Auth.PreventDefault; call])
          | Auth.Resolves error =>
              if truthy error then
                match get_property error "message" with
                | inl m =>
                    (Normal tt,
                     ends [Auth.PreventDefault; call;
                           Auth.Toast "Registration Failed"
                             (Auth.MessageOf m) destructive])
                | inr e => (Throw e, ends [Auth.PreventDefault; call])
                end
              else
                (Normal tt,
                 ends [Auth.PreventDefault; call;
                       Auth.Toast "Account Created"
                         (Auth.Text
                            "You can now sign in with your credentials")
                         default])
          end
    end.
Proof.
  cbv zeta.
  unfold Auth.handleSignup, Auth.try_finally, Auth.bind at 1 2.
  unfold Auth.emit at 1, Auth.setIsLoading at 1.
  cbn [Auth.log Auth.isLoading].
  destruct (Auth.signupSchema is_email _ _ _ _) as [|issue rest].
  - fold (Auth.studentData_of f).
    destruct (Auth.is_student (Auth.role f)
              && (negb (nonempty (Auth.rollNumber f))
                  || negb (nonempty (Auth.branch f)))).
    + cbn. rewrite <- app_assoc. reflexivity.
    + unfold Auth.bind, Auth.callSignUp, Auth.bind, Auth.emit, Auth.await.
      cbn [Auth.log Auth.isLoading].
      destruct (Auth.signUp auth (Auth.log st ++ [Auth.PreventDefault])
                  (Auth.signupEmail f) (Auth.signupPassword f)
                  (Auth.fullName f) (Auth.role f) (Auth.studentData_of f))
        as [reason | error]; cbn.
      * rewrite <- app_assoc. reflexivity.
      * destruct (truthy error); cbn.
        -- unfold Auth.message.
           destruct (get_property error "message"); cbn;
             rewrite <- !app_assoc; reflexivity.
        -- rewrite <- !app_assoc. reflexivity.
  - cbn. rewrite <- app_assoc. reflexivity.
Qed.

Lemma signupSchema_valid (f : Auth.Fields) :
  Auth.signupSchema is_email (Auth.signupEmail f) (Auth.signupPassword f)
    (Auth.fullName f)
    (if Auth.is_student (Auth.role f)
     then Some (ParseInt.parseInt (Auth.semester f)) else None) = []
  <-> is_email (Auth.signupEmail f)
      && (6 <=? String.length (Auth.signupPassword f))%nat
      && (2 <=? String.length (Auth.fullName f))%nat
      && (if Auth.is_student (Auth.role f)
          then ParseInt.is_number (ParseInt.parseInt (Auth.semester f))
          else true) = true.
Proof.
  unfold Auth.signupSchema, Auth.loginSchema.
  destruct (is_email (Auth.signupEmail f)),
    (6 <=? String.length (Auth.signupPassword f))%nat,
    (2 <=? String.length (Auth.fullName f))%nat,
    (Auth.is_student (Auth.role f));
    try destruct (ParseInt.parseInt (Auth.semester f));
    simpl; split; congruence.
Qed.

End SignUp.

(** X20: [handleSignup] calls [signUp] exactly when the e-mail is
    accepted, the password has at least six and the name at least two
    code units and, for a student, [parseInt] of the semester is a number
    and roll number and branch are filled in; the call then carries the
    fields as entered, with the student details, the parsed semester
    among them, for a student and with none for the other roles,
    whatever the student fields hold. *)
Theorem signup_calls_signUp_only_when_valid (is_email : string -> bool)
  (auth : Auth.Service) (f : Auth.Fields) (st : Auth.State) :
  filter Auth.is_call (Auth.signup_events is_email auth f st) =
    if is_email (Auth.signupEmail f)
       && (6 <=? String.length (Auth.signupPassword f))%nat
       && (2 <=? String.length (Auth.fullName f))%nat
       && match Auth.role f with
          | Auth.student =>
              ParseInt.is_number (ParseInt.parseInt (Auth.semester f))
              && nonempty (Auth.rollNumber f) && nonempty (Auth.branch f)
          | _ => true
          end
    then
      [Auth.SignUp (Auth.signupEmail f) (Auth.signupPassword f)
         (Auth.fullName f) (Auth.role f)
         match Auth.role f with
         | Auth.student =>
             Some {| Auth.StudentData.rollNumber := Auth.rollNumber f;
                     Auth.StudentData.branch := Auth.branch f;
                     Auth.StudentData.semester :=
                       ParseInt.parseInt (Auth.semester f) |}
         | _ => None
         end]
    else [].
Proof.
  unfold Auth.signup_events. rewrite handleSignup_run. cbv zeta.
  pose proof (signupSchema_valid is_email f) as Hvalid.
  destruct (Auth.signupSchema is_email _ _ _ _) as [|issue rest].
  - pose proof (proj1 Hvalid eq_refl) as Hok. clear Hvalid.
    apply andb_true_iff in Hok. destruct Hok as [Hok Hsem].
    rewrite Hok. cbn [andb].
    unfold Auth.studentData_of.
    destruct (Auth.role f); cbn [Auth.is_student andb] in *.
    1, 2: destruct (Auth.signUp _ _ _ _ _ _ _) as [reason | error];
      [| destruct (truthy error);
         [destruct (get_property error "message") |]];
      cbn [snd]; rewrite added_app; reflexivity.
    rewrite Hsem. cbn [andb].
    destruct (nonempty (Auth.rollNumber f)), (nonempty (Auth.branch f));
      cbn [negb orb andb];
      try (cbn [snd]; rewrite added_app; reflexivity).
    destruct (Auth.signUp _ _ _ _ _ _ _) as [reason | error];
      [| destruct (truthy error);
         [destruct (get_property error "message") |]];
      cbn [snd]; rewrite added_app; reflexivity.
  - cbn [snd]. rewrite added_app. cbn [filter Auth.is_call].
    match goal with
    | |- [] = if ?c then _ else _ => destruct c eqn:Hc; [| reflexivity]
    end.
    exfalso. destruct Hvalid as [_ Hvalid].
    assert (Hlist : issue :: rest = []); [| discriminate].
    apply Hvalid.
    apply andb_true_iff in Hc. destruct Hc as [Hc Hrole]. rewrite Hc.
    destruct (Auth.role f); cbn [Auth.is_student andb]; try reflexivity.
    apply andb_true_iff in Hrole. destruct Hrole as [Hrole _].
    apply andb_true_iff in Hrole. destruct Hrole as [Hrole _].
    exact Hrole.
Qed.

(** X21: [handleSignup] clears the loading flag on every path, and it
    announces Account Created only after a [signUp] call that resolved
    without an error: never after a failed validation, missing student
    details, an error in the reply or a rejection. *)
Theorem signup_success_needs_clean_signUp (is_email : string -> bool)
  (auth : Auth.Service) (f : Auth.Fields) (st : Auth.State)
  (description : Auth.Shown) (variant : Variant) :
  Auth.isLoading (snd (Auth.handleSignup is_email auth f st)) = false
  /\ (In (Auth.Toast "Account Created" description variant)
        (Auth.signup_events is_email auth f st) ->
      exists error,
        Auth.signUp auth (Auth.log st ++ [Auth.PreventDefault])
          (Auth.signupEmail f) (Auth.signupPassword f) (Auth.fullName f)
          (Auth.role f) (Auth.studentData_of f) = Auth.Resolves error
        /\ truthy error = false
        /\ fst (Auth.handleSignup is_email auth f st) = Normal tt
        /\ In (Auth.SignUp (Auth.signupEmail f) (Auth.signupPassword f)
                 (Auth.fullName f) (Auth.role f) (Auth.studentData_of f))
             (Auth.signup_events is_email auth f st)).
Proof.
  unfold Auth.signup_events. rewrite handleSignup_run. cbv zeta.
  destruct (Auth.signupSchema is_email _ _ _ _) as [|issue rest].
  - destruct (Auth.is_student (Auth.role f)
              && (negb (nonempty (Auth.rollNumber f))
                  || negb (nonempty (Auth.branch f)))).
    + cbn [snd Auth.isLoading]. rewrite added_app.
      split; [reflexivity |].
      intros [H | [H | []]]; discriminate.
    + destruct (Auth.signUp _ _ _ _ _ _ _) as [reason | error].
      * cbn [snd Auth.isLoading]. rewrite added_app.
        split; [reflexivity |].
        intros [H | [H | []]]; discriminate.
      * destruct (truthy error) eqn:Herr.
        -- destruct (get_property error "message");
             cbn [snd Auth.isLoading]; rewrite added_app;
             (split; [reflexivity |]).
           ++ intros [H | [H | [H | []]]]; discriminate.
           ++ intros [H | [H | []]]; discriminate.
        -- cbn [snd fst Auth.isLoading]. rewrite added_app.
           split; [reflexivity |].
           intros _. exists error. repeat split; auto.
           simpl. auto.
  - cbn [snd Auth.isLoading]. rewrite added_app.
    split; [reflexivity |].
    intros [H | [H | []]]; discriminate.
Qed.

Lemma signup_success_needs_clean_signUp_witness :
  exists error,
    Auth.signUp (Auth.always (Auth.Resolves JNull))
      (Auth.log Auth.start ++ [Auth.PreventDefault])
      (Auth.signupEmail Auth.sample) (Auth.signupPassword Auth.sample)
      (Auth.fullName Auth.sample) (Auth.role Auth.sample)
      (Auth.studentData_of Auth.sample) = Auth.Resolves error
    /\ truthy error = false
    /\ fst (Auth.handleSignup Auth.has_at (Auth.always (Auth.Resolves JNull))
              Auth.sample Auth.start) = Normal tt
    /\ In (Auth.SignUp (Auth.signupEmail Auth.sample)
             (Auth.signupPassword Auth.sample) (Auth.fullName Auth.sample)
             (Auth.role Auth.sample) (Auth.studentData_of Auth.sample))
         (Auth.signup_events Auth.has_at (Auth.always (Auth.Resolves JNull))
            Auth.sample Auth.start).
Proof.
  apply (proj2 (signup_success_needs_clean_signUp Auth.has_at
                  (Auth.always (Auth.Resolves JNull)) Auth.sample Auth.start
                  (Auth.Text "You can now sign in with your credentials")
                  default)).
  simpl. auto.
Defined.

(** X22: when the effect of the sign-in page navigates, for a signed-in
    user whose role is admin, faculty or student, the location it
    navigates to shows, without further redirect, a dashboard page meant
    for that role. *)
Theorem role_effect_opens_own_dashboard (auth : App.AuthContext)
  (r path : string) :
  App.role auth = Some r ->
  r = "admin" \/ r = "faculty" \/ r = "student" ->
  Auth.roleEffect auth = Some path ->
  path = Auth.navigateByRole r
  /\ exists page,
       App.settle 1 auth path = Some page
       /\ App.is_dashboard page = true
       /\ App.audience page = Some r.
Proof.
  intros Hr Hknown. unfold Auth.roleEffect. rewrite Hr.
  destruct (App.user auth) as [u |] eqn:Hu; [| discriminate].
  destruct (App.loading auth) eqn:Hl; [discriminate |].
  destruct (nonempty r) eqn:Hne; [| discriminate].
  intros [= <-]. split; [reflexivity |].
  simpl. unfold App.AppRoutes.
  rewrite !(ProtectedRoute_role auth u r _ _ Hl Hu Hr Hne), Hl.
  destruct Hknown as [-> | [-> | ->]]; simpl; eexists; repeat split.
Qed.

Lemma role_effect_opens_own_dashboard_witness :
  "/faculty" = Auth.navigateByRole "faculty"
  /\ exists page,
       App.settle 1 (App.signed_in (Some "faculty")) "/faculty" = Some page
       /\ App.is_dashboard page = true
       /\ App.audience page = Some "faculty".
Proof.
  apply (role_effect_opens_own_dashboard (App.signed_in (Some "faculty"))
           "faculty" "/faculty");
    [reflexivity | right; left; reflexivity | reflexivity].
Defined.

(** X23: [navigateByRole] and the redirect of the /auth route agree
    exactly on the roles admin, faculty and student.  For any other role
    [navigateByRole] goes to / while the /auth route sends the signed-in
    user to /student. *)
Theorem navigateByRole_agrees_on_known_roles (auth : App.AuthContext)
  (u : User.user) (r : string) (routes : list (string * App.Element)) :
  App.user auth = Some u ->
  App.role auth = Some r ->
  App.AppRoutes auth = Some routes ->
  exists to,
    App.element_at routes "/auth" = Some (App.Navigate to false)
    /\ (Auth.navigateByRole r = to
        <-> r = "admin" \/ r = "faculty" \/ r = "student")
    /\ (~ (r = "admin" \/ r = "faculty" \/ r = "student") ->
        Auth.navigateByRole r = "/" /\ to = "/student").
Proof.
  intros Hu Hr. unfold App.AppRoutes.
  destruct (App.loading auth); [discriminate |].
  intros [= <-]. rewrite Hu, Hr.
  eexists. split; [reflexivity |].
  unfold Auth.navigateByRole, App.role_is.
  destruct (String.eqb_spec r "admin") as [-> | Ha]; [simpl; split; tauto |].
  destruct (String.eqb_spec r "faculty") as [-> | Hf]; [simpl; split; tauto |].
  destruct (String.eqb_spec r "student") as [-> | Hs]; [simpl; split; tauto |].
  split.
  - split; [discriminate | tauto].
  - intros _. split; reflexivity.
Qed.

Lemma navigateByRole_agrees_on_known_roles_witness :
  exists to,
    App.element_at
      [ ("/auth", App.Navigate "/student" false);
        ("/", App.Navigate "/auth" true);
        ("/admin", App.Navigate "/auth" true);
        ("/admin/feedback", App.Navigate "/auth" true);
        ("/admin/students", App.Navigate "/auth" true);
        ("/faculty", App.Navigate "/auth" true);
        ("/student", App.Navigate "/auth" true);
        ("/student/feedback", App.Navigate "/auth" true);
        ("*", App.Render App.NotFound) ] "/auth"
      = Some (App.Navigate to false)
    /\ (Auth.navigateByRole "guest" = to
        <-> "guest" = "admin" \/ "guest" = "faculty" \/ "guest" = "student")
    /\ (~ ("guest" = "admin" \/ "guest" = "faculty" \/ "guest" = "student") ->
        Auth.navigateByRole "guest" = "/" /\ to = "/student").
Proof.
  apply (navigateByRole_agrees_on_known_roles (App.signed_in (Some "guest"))
           {| User.id := "u-1" |} "guest"); reflexivity.
Defined.
